(** * Memory Wall controller (memoryWall.controller.js): a shallow embedding

    The controller is an Express module with six handlers.  Each handler reads
    the request, calls the persistence service ([memoryWallService]) or the
    Supabase client, and answers through one of the response helpers.  The
    embedding keeps that shape: JavaScript values are an inductive type,
    strings are sequences of UTF-16 code units, and a handler is a computation
    in a small state-and-exception monad whose state holds the service's
    store, the clock and the trace of outside calls made so far. *)

From Stdlib Require Import List String Ascii ZArith NArith Bool Lia.
Import ListNotations.

Set Implicit Arguments.

(** ** JavaScript strings *)

Module JsString.

(** A JavaScript string is a sequence of UTF-16 code units. *)
Definition jstr := list N.

(** A literal of the source text.  Every literal of the controller is ASCII. *)
Definition lit (s : string) : jstr := map N_of_ascii (list_ascii_of_string s).

Fixpoint eqb (a b : jstr) : bool :=
  match a, b with
  | [], [] => true
  | x :: a', y :: b' => N.eqb x y && eqb a' b'
  | _, _ => false
  end.

(** WhiteSpace and LineTerminator code units of ECMAScript, the ones
    [String.prototype.trim] and [parseInt] strip. *)
Definition isWhiteSpace (c : N) : bool :=
  (N.eqb c 9 || N.eqb c 10 || N.eqb c 11 || N.eqb c 12 || N.eqb c 13
   || N.eqb c 32 || N.eqb c 160 || N.eqb c 5760
   || (N.leb 8192 c && N.leb c 8202)
   || N.eqb c 8232 || N.eqb c 8233 || N.eqb c 8239 || N.eqb c 8287
   || N.eqb c 12288 || N.eqb c 65279)%bool.

Fixpoint trimStart (s : jstr) : jstr :=
  match s with
  | c :: r => if isWhiteSpace c then trimStart r else s
  | [] => []
  end.

Definition trimEnd (s : jstr) : jstr := rev (trimStart (rev s)).

(** [String.prototype.trim]. *)
Definition trim (s : jstr) : jstr := trimEnd (trimStart s).

Fixpoint startsWith (s prefix : jstr) : bool :=
  match prefix, s with
  | [], _ => true
  | p :: prefix', c :: s' => N.eqb p c && startsWith s' prefix'
  | _ :: _, [] => false
  end.

(** [String.prototype.includes]. *)
Fixpoint includes (s needle : jstr) : bool :=
  startsWith s needle ||
  match s with
  | [] => false
  | _ :: r => includes r needle
  end.

(** [Array.prototype.join] on an array of strings. *)
Fixpoint join (sep : jstr) (parts : list jstr) : jstr :=
  match parts with
  | [] => []
  | [p] => p
  | p :: rest => p ++ sep ++ join sep rest
  end.

(** [s.substring(1)]. *)
Definition substring1 (s : jstr) : jstr := tl s.

(** Value of a code unit as a digit in the given radix, as [parseInt] reads
    it. *)
Definition digitValue (radix c : N) : option N :=
  let v :=
    if (N.leb 48 c && N.leb c 57)%bool then Some (c - 48)%N
    else if (N.leb 97 c && N.leb c 122)%bool then Some (c - 87)%N
    else if (N.leb 65 c && N.leb c 90)%bool then Some (c - 55)%N
    else None in
  match v with
  | Some d => if N.ltb d radix then Some d else None
  | None => None
  end.

(** The longest prefix of digits, read as a number: [None] when there is no
    digit at all. *)
Fixpoint readDigits (radix : N) (s : jstr) (acc : option N) : option N :=
  match s with
  | [] => acc
  | c :: r =>
      match digitValue radix c with
      | Some d =>
          readDigits radix r
            (Some (match acc with Some a => a * radix + d | None => d end)%N)
      | None => acc
      end
  end.

(** [parseInt(s)] with no radix argument; [None] is NaN.  The result is the
    mathematical integer (a double represents it exactly below 2^53). *)
Definition parseInt (s : jstr) : option Z :=
  let s := trimStart s in
  let '(neg, s) :=
    match s with
    | 45%N :: r => (true, r)
    | 43%N :: r => (false, r)
    | _ => (false, s)
    end in
  let '(radix, s) :=
    match s with
    | 48%N :: 120%N :: r => (16%N, r)
    | 48%N :: 88%N :: r => (16%N, r)
    | _ => (10%N, s)
    end in
  match readDigits radix s None with
  | Some n => Some (if neg then Z.opp (Z.of_N n) else Z.of_N n)
  | None => None
  end.

End JsString.

Import JsString.

(** ** JavaScript values *)

(** The values the handlers branch on.  Numbers are the integer-valued ones;
    arrays and objects in a field are outside the model. *)
Inductive jsval :=
| VUndefined
| VNull
| VBool (b : bool)
| VNum (n : Z)
| VStr (s : jstr).

(** ToBoolean. *)
Definition truthy (v : jsval) : bool :=
  match v with
  | VUndefined | VNull => false
  | VBool b => b
  | VNum n => negb (Z.eqb n 0)
  | VStr s => negb (eqb s [])
  end.

(** [a || b]. *)
Definition js_or (a b : jsval) : jsval := if truthy a then a else b.

(** [v !== undefined]. *)
Definition isDefined (v : jsval) : bool :=
  match v with
  | VUndefined => false
  | _ => true
  end.

Definition jsval_eqb (a b : jsval) : bool :=
  match a, b with
  | VUndefined, VUndefined => true
  | VNull, VNull => true
  | VBool x, VBool y => Bool.eqb x y
  | VNum x, VNum y => Z.eqb x y
  | VStr x, VStr y => eqb x y
  | _, _ => false
  end.

(** ** Requests, files and errors *)

(** [req.file] as multer builds it (the buffer itself is not needed). *)
Record File := {
  originalname : jstr;
  size : Z;
  mimetype : jstr
}.

(** A thrown value as the handlers see it: through [instanceof
    multer.MulterError], [.code] and [.message]. *)
Inductive Exn :=
| JsError (message : jsval)
| MulterError (code message : jstr).

(** [error.message]. *)
Definition exn_message (e : Exn) : jsval :=
  match e with
  | JsError m => m
  | MulterError _ m => VStr m
  end.

(** What the multipart body carries for the upload middleware: no file part,
    a file in the [photo] field, or a body on which the middleware fails for
    a reason of its own (unexpected field, malformed part, ...). *)
Inductive Upload :=
| NoUpload
| PhotoUpload (f : File)
| UploadFailure (e : Exn).

(** [req.user], filled in by the authentication middleware. *)
Record User := {
  user_id : jsval;
  role : jsval;
  college_id : jsval
}.

Record Request := {
  user : User;
  tenant : jsval;
  params_id : jsval;
  body_title : jsval;
  body_date : jsval;
  body_description : jsval;
  query_search : jsval;
  query_startDate : jsval;
  query_endDate : jsval;
  upload : Upload
}.

(** A plain object built by a handler ([updates], [filters]): keys in
    insertion order. *)
Definition JsObject := list (string * jsval).

(** [o[k] = v]. *)
Fixpoint setProp (k : string) (v : jsval) (o : JsObject) : JsObject :=
  match o with
  | [] => [(k, v)]
  | (k', v') :: r =>
      if String.eqb k' k then (k, v) :: r else (k', v') :: setProp k v r
  end.

(** [o[k]]. *)
Fixpoint getProp (k : string) (o : JsObject) : jsval :=
  match o with
  | [] => VUndefined
  | (k', v) :: r => if String.eqb k' k then v else getProp k r
  end.

(** [Object.keys(o)]. *)
Definition keys (o : JsObject) : list string := map fst o.

(** [memoryData] of createMemory. *)
Record MemoryData := {
  data_title : jstr;
  data_date : jsval;
  data_description : jsval
}.

(** The row the profile query selects. *)
Record Profile := { profile_college_id : jsval }.

(** [{ data, error }] of a Supabase query. *)
Record QueryResult := {
  data : option Profile;
  error : option Exn
}.

(** Calls that leave the handler, in the order they are made: a line on the
    console (by its fixed first argument), a line on the console that prints
    an error, the profile query, and the operations of the persistence
    service. *)
Inductive Event :=
| Log (line : string)
| LogError (line : string) (e : Exn)
| ProfileQuery (userId : jsval)
| ServiceCreate (memoryData : MemoryData) (file : File) (userId collegeId : jsval)
| ServiceList (userId collegeId : jsval) (filters : JsObject)
| ServiceGet (id userId collegeId : jsval)
| ServiceUpdate (id userId collegeId : jsval) (updates : JsObject)
| ServiceDelete (id userId collegeId : jsval)
| ServiceStats (userId collegeId : jsval).

Definition isProfileQuery (e : Event) : bool :=
  match e with
  | ProfileQuery _ => true
  | _ => false
  end.

Definition isServiceCreate (e : Event) : bool :=
  match e with
  | ServiceCreate _ _ _ _ => true
  | _ => false
  end.

Definition isServiceUpdate (e : Event) : bool :=
  match e with
  | ServiceUpdate _ _ _ _ => true
  | _ => false
  end.

(** The tenant argument of a call to the persistence service. *)
Definition serviceTenant (e : Event) : option jsval :=
  match e with
  | ServiceCreate _ _ _ c | ServiceList _ c _ | ServiceGet _ _ c
  | ServiceUpdate _ _ c _ | ServiceDelete _ _ c | ServiceStats _ c => Some c
  | Log _ | LogError _ _ | ProfileQuery _ => None
  end.

(** ** The runtime *)

(** Library and engine functions the controller calls whose results depend on
    the platform: date parsing and the local time zone, [path.extname],
    Unicode lower-casing, the text of a TypeError, and the environment. *)
Record Runtime := {
  (** [new Date(v).getTime()], [None] for NaN. *)
  date_parse : jsval -> option Z;
  (** Time value after [setHours(23, 59, 59, 999)] on a date with the given
      time value. *)
  end_of_local_day : Z -> Z;
  path_extname : jstr -> jstr;
  to_lower_case : jstr -> jstr;
  (** Message of the TypeError raised by calling method [m] on [v]. *)
  type_error_message : jsval -> string -> jstr;
  (** [process.env.MAX_IMAGE_SIZE]. *)
  env_MAX_IMAGE_SIZE : option jstr
}.

(** ** The upload middleware *)

Definition allowedImageTypes : list jstr :=
  [lit "jpg"; lit "jpeg"; lit "png"; lit "gif"; lit "webp"; lit "heic"; lit "heif"].

(** [fileExtension] of fileFilter. *)
Definition fileExtension (rt : Runtime) (file : File) : jstr :=
  substring1 (to_lower_case rt (path_extname rt (originalname file))).

(** [allowedImageTypes.includes(ext)]. *)
Definition arrayIncludes (l : list jstr) (x : jstr) : bool := existsb (eqb x) l.

(** fileFilter: [inr accept] for [cb(null, accept)], [inl e] for
    [cb(e, false)]. *)
Definition fileFilter (rt : Runtime) (file : File) : Exn + bool :=
  if arrayIncludes allowedImageTypes (fileExtension rt file) then inr true
  else
    inl (JsError (VStr (lit "File type not allowed. Allowed image types: "
                          ++ join (lit ", ") allowedImageTypes))).

(** [parseInt(process.env.MAX_IMAGE_SIZE) || 10485760]: NaN and 0 are falsy. *)
Definition fileSizeLimit (rt : Runtime) : Z :=
  match env_MAX_IMAGE_SIZE rt with
  | Some s =>
      match parseInt s with
      | Some n => if Z.eqb n 0 then 10485760 else n
      | None => 10485760
      end
  | None => 10485760
  end%Z.

(** [upload.single('photo')] as the handler observes it: the error handed to
    the callback and [req.file].  multer runs the file filter when the part
    starts and raises LIMIT_FILE_SIZE once the part grows past
    [limits.fileSize]. *)
Definition uploadMiddleware (rt : Runtime) (u : Upload) : option Exn * option File :=
  match u with
  | NoUpload => (None, None)
  | UploadFailure e => (Some e, None)
  | PhotoUpload f =>
      match fileFilter rt f with
      | inl e => (Some e, None)
      | inr false => (None, None)
      | inr true =>
          if (fileSizeLimit rt <? size f)%Z
          then (Some (MulterError (lit "LIMIT_FILE_SIZE") (lit "File too large")), None)
          else (None, Some f)
      end
  end.

(** ** Responses *)

Section Model.

(** [Store] is the state behind the persistence service and the Supabase
    client; [Memory] is what the service hands back (a record, a list of
    records, the statistics). *)
Variables Store Memory : Type.

(** The call a handler answers with: which helper of utils/response.js, with
    which arguments.  The service's result is [None] when it is null. *)
Inductive Response :=
| successResponse (payload : option Memory) (message : jstr) (statusCode : option Z)
| errorResponse (message : jsval) (statusCode : Z)
| notFoundResponse (message : jsval).

(** Modelled from the spec: utils/response.js is not among the sources.  A
    success answers 200 unless a status is passed, not-found answers 404, an
    error answers with the status it is given. *)
Definition httpStatus (r : Response) : Z :=
  match r with
  | successResponse _ _ (Some s) => s
  | successResponse _ _ None => 200
  | errorResponse _ s => s
  | notFoundResponse _ => 404
  end%Z.

(** ** Statements with effects *)

Record World := {
  store : Store;
  (** time value [new Date()] reads *)
  clock : Z;
  trace : list Event
}.

(** How a statement completes: normally with a value, by [return] from the
    handler, or by [throw]. *)
Inductive Completion (A : Type) :=
| Normal (a : A)
| Return (r : Response)
| Throw (e : Exn).

Arguments Normal {A} a.
Arguments Return {A} r.
Arguments Throw {A} e.

Definition M (A : Type) := World -> Completion A * World.

Definition ret {A} (a : A) : M A := fun w => (Normal a, w).

Definition bind {A B} (m : M A) (k : A -> M B) : M B :=
  fun w =>
    match m w with
    | (Normal a, w') => k a w'
    | (Return r, w') => (Return r, w')
    | (Throw e, w') => (Throw e, w')
    end.

Definition return_ {A} (r : Response) : M A := fun w => (Return r, w).

Definition throw {A} (e : Exn) : M A := fun w => (Throw e, w).

(** [try { body } catch (error) { handler }]. *)
Definition tryCatch {A} (body : M A) (handler : Exn -> M A) : M A :=
  fun w =>
    match body w with
    | (Throw e, w') => handler e w'
    | other => other
    end.

(** [if (c) { block }] with no else branch. *)
Definition when (c : bool) (block : M unit) : M unit :=
  if c then block else ret tt.

(** An outside call that returns nothing: it is added to the trace. *)
Definition emit (e : Event) : M unit :=
  fun w => (Normal tt, {| store := store w; clock := clock w; trace := trace w ++ [e] |}).

Definition log (line : string) : M unit := emit (Log line).

Definition logError (line : string) (e : Exn) : M unit := emit (LogError line e).

(** [new Date().getTime()]. *)
Definition newDate : M Z := fun w => (Normal (clock w), w).

Notation "x <- m ;; k" := (bind m (fun x => k))
  (at level 61, m at next level, right associativity).
Notation "m ;; k" := (bind m (fun _ => k))
  (at level 61, right associativity).

(** ** The persistence service and the Supabase client *)

(** memoryWall.service.js and config/supabase.js are outside the controller:
    each operation is a function of the store that returns or throws. *)
Record Service := {
  svc_createMemory :
    MemoryData -> File -> jsval -> jsval -> Store -> (Exn + option Memory) * Store;
  svc_getStudentMemories :
    jsval -> jsval -> JsObject -> Store -> (Exn + option Memory) * Store;
  svc_getMemoryById :
    jsval -> jsval -> jsval -> Store -> (Exn + option Memory) * Store;
  svc_updateMemory :
    jsval -> jsval -> jsval -> JsObject -> Store -> (Exn + option Memory) * Store;
  svc_deleteMemory :
    jsval -> jsval -> jsval -> Store -> (Exn + option Memory) * Store;
  svc_getMemoryStats :
    jsval -> jsval -> Store -> (Exn + option Memory) * Store;
  (** [supabase.from('profiles').select('college_id').eq('id', userId).single()] *)
  profiles_select_college_id : jsval -> Store -> QueryResult
}.

Variable rt : Runtime.
Variable memoryWallService : Service.

(** [await] of a service call: the call is recorded, the store moves on, the
    promise resolves or rejects. *)
Definition await (e : Event) (call : Store -> (Exn + option Memory) * Store)
  : M (option Memory) :=
  fun w =>
    let '(r, s') := call (store w) in
    let w' := {| store := s'; clock := clock w; trace := trace w ++ [e] |} in
    match r with
    | inl err => (Throw err, w')
    | inr v => (Normal v, w')
    end.

(** [await] of the profile query: it reads the store and resolves with
    [{ data, error }]. *)
Definition awaitProfile (userId : jsval) : M QueryResult :=
  fun w =>
    (Normal (profiles_select_college_id memoryWallService userId (store w)),
     {| store := store w; clock := clock w; trace := trace w ++ [ProfileQuery userId] |}).

(** [v.trim()]: a TypeError unless [v] is a string. *)
Definition trimOf (v : jsval) : M jstr :=
  match v with
  | VStr s => ret (trim s)
  | _ => throw (JsError (VStr (type_error_message rt v "trim")))
  end.

(** [v.includes(needle)]: a TypeError unless [v] is a string. *)
Definition includesOf (v : jsval) (needle : jstr) : M bool :=
  match v with
  | VStr s => ret (includes s needle)
  | _ => throw (JsError (VStr (type_error_message rt v "includes")))
  end.

(** [return errorResponse(res, message, 400)] with a literal message. *)
Definition err400 {A} (message : string) : M A :=
  return_ (errorResponse (VStr (lit message)) 400).

(** ** createMemory (POST /api/student/memory-wall) *)

Definition createMemory (req : Request) : M unit :=
  let '(err, file) := uploadMiddleware rt (upload req) in
  tryCatch
    (log "[MemoryWall Controller] Create memory request received" ;;
     log "[MemoryWall Controller] User:" ;;
     (* Handle multer errors *)
     match err with
     | Some (MulterError code message as e) =>
         logError "[MemoryWall Controller] Multer error:" e ;;
         when (eqb code (lit "LIMIT_FILE_SIZE"))
           (err400 "Photo size exceeds the limit (10MB)") ;;
         return_ (errorResponse (VStr (lit "Photo upload error: " ++ message)) 400)
     | Some (JsError message as e) =>
         logError "[MemoryWall Controller] Upload middleware error:" e ;;
         return_ (errorResponse message 400)
     | None => ret tt
     end ;;
     file <- match file with
             | None =>
                 log "[MemoryWall Controller] No photo uploaded" ;;
                 err400 "Photo is required. Please choose a photo."
             | Some f => ret f
             end ;;
     log "[MemoryWall Controller] Photo received:" ;;
     (* Validate required fields *)
     let title := body_title req in
     let date := body_date req in
     let description := body_description req in
     blank <- (if negb (truthy title) then ret true
               else t <- trimOf title ;; ret (eqb t [])) ;;
     when blank (err400 "Title is required") ;;
     t <- trimOf title ;;
     when (200 <? List.length t)%nat (err400 "Title must not exceed 200 characters") ;;
     when (negb (truthy date)) (err400 "Date is required") ;;
     (* Validate date format and ensure it's not in the future *)
     let memoryDate := date_parse rt date in
     now <- newDate ;;
     let today := end_of_local_day rt now in
     memoryTime <- match memoryDate with
                   | None => err400 "Invalid date format"
                   | Some ms => ret ms
                   end ;;
     when (today <? memoryTime)%Z (err400 "Memory date cannot be in the future") ;;
     (* Get student's college_id *)
     let collegeId := js_or (college_id (user req)) (tenant req) in
     (* If still no college_id, fetch from profiles table *)
     collegeId <- (if negb (truthy collegeId) then
                     log "[MemoryWall] Fetching college_id from profiles table for user:" ;;
                     result <- awaitProfile (user_id (user req)) ;;
                     match error result with
                     | Some profileError =>
                         logError "[MemoryWall] Error fetching profile:" profileError
                     | None => ret tt
                     end ;;
                     let collegeId :=
                       js_or (match data result with
                              | Some profile => profile_college_id profile
                              | None => VUndefined
                              end) VNull in
                     log "[MemoryWall] College ID from profile:" ;;
                     ret collegeId
                   else ret collegeId) ;;
     when (negb (truthy collegeId))
       (log "[MemoryWall] College ID not found for student:" ;;
        err400 "College ID not found. Please update your profile.") ;;
     (* Prepare memory data *)
     trimmedTitle <- trimOf title ;;
     trimmedDescription <- (if truthy description
                            then d <- trimOf description ;; ret (VStr d)
                            else ret VNull) ;;
     let memoryData := {| data_title := trimmedTitle;
                          data_date := date;
                          data_description := trimmedDescription |} in
     log "[MemoryWall] Creating memory:" ;;
     (* Create memory *)
     memory <- await (ServiceCreate memoryData file (user_id (user req)) collegeId)
                 (svc_createMemory memoryWallService memoryData file
                    (user_id (user req)) collegeId) ;;
     return_ (successResponse memory (lit "Memory created successfully") (Some 201%Z)))
    (fun error =>
       logError "[MemoryWall] Create memory error:" error ;;
       logError "[MemoryWall] Error stack:" error ;;
       return_ (errorResponse
                  (js_or (exn_message error) (VStr (lit "Failed to create memory")))
                  500)).

(** ** getAllMemories (GET /api/student/memory-wall) *)

Definition getAllMemories (req : Request) : M unit :=
  tryCatch
    (let search := query_search req in
     let startDate := query_startDate req in
     let endDate := query_endDate req in
     let filters : JsObject := [] in
     let filters := if truthy search then setProp "search" search filters else filters in
     let filters := if truthy startDate then setProp "startDate" startDate filters else filters in
     let filters := if truthy endDate then setProp "endDate" endDate filters else filters in
     let collegeId := js_or (college_id (user req)) (tenant req) in
     memories <- await (ServiceList (user_id (user req)) collegeId filters)
                   (svc_getStudentMemories memoryWallService
                      (user_id (user req)) collegeId filters) ;;
     return_ (successResponse memories (lit "Memories retrieved successfully") None))
    (fun error =>
       logError "[MemoryWall] Get all memories error:" error ;;
       return_ (errorResponse
                  (js_or (exn_message error) (VStr (lit "Failed to fetch memories")))
                  500)).

(** ** getMemoryById (GET /api/student/memory-wall/:id) *)

Definition getMemoryById (req : Request) : M unit :=
  tryCatch
    (let id := params_id req in
     let collegeId := js_or (college_id (user req)) (tenant req) in
     memory <- await (ServiceGet id (user_id (user req)) collegeId)
                 (svc_getMemoryById memoryWallService id (user_id (user req)) collegeId) ;;
     match memory with
     | None => return_ (notFoundResponse (VStr (lit "Memory not found")))
     | Some _ => ret tt
     end ;;
     return_ (successResponse memory (lit "Memory retrieved successfully") None))
    (fun error =>
       logError "[MemoryWall] Get memory by ID error:" error ;;
       when (jsval_eqb (exn_message error) (VStr (lit "Memory not found")))
         (return_ (notFoundResponse (exn_message error))) ;;
       return_ (errorResponse
                  (js_or (exn_message error) (VStr (lit "Failed to fetch memory")))
                  500)).

(** ** updateMemory (PUT /api/student/memory-wall/:id) *)

(** The catch block shared, word for word, by updateMemory and deleteMemory,
    up to the log line and the fallback message. *)
Definition notFoundOrError (line fallback : string) (error : Exn) : M unit :=
  logError line error ;;
  missing <- includesOf (exn_message error) (lit "not found") ;;
  denied <- (if missing then ret true
             else includesOf (exn_message error) (lit "permission")) ;;
  when denied (return_ (notFoundResponse (exn_message error))) ;;
  return_ (errorResponse (js_or (exn_message error) (VStr (lit fallback))) 500).

Definition updateMemory (req : Request) : M unit :=
  tryCatch
    (let id := params_id req in
     let title := body_title req in
     let date := body_date req in
     let description := body_description req in
     let collegeId := js_or (college_id (user req)) (tenant req) in
     (* Validate updates *)
     let updates : JsObject := [] in
     updates <- (if isDefined title then
                   t <- trimOf title ;;
                   when (eqb t []) (err400 "Title cannot be empty") ;;
                   t <- trimOf title ;;
                   when (200 <? List.length t)%nat
                     (err400 "Title must not exceed 200 characters") ;;
                   ret (setProp "title" title updates)
                 else ret updates) ;;
     updates <- (if isDefined date then
                   let memoryDate := date_parse rt date in
                   now <- newDate ;;
                   let today := end_of_local_day rt now in
                   memoryTime <- match memoryDate with
                                 | None => err400 "Invalid date format"
                                 | Some ms => ret ms
                                 end ;;
                   when (today <? memoryTime)%Z
                     (err400 "Memory date cannot be in the future") ;;
                   ret (setProp "date" date updates)
                 else ret updates) ;;
     let updates := if isDefined description
                    then setProp "description" description updates
                    else updates in
     when (List.length (keys updates) =? 0)%nat (err400 "No valid fields to update") ;;
     memory <- await (ServiceUpdate id (user_id (user req)) collegeId updates)
                 (svc_updateMemory memoryWallService id (user_id (user req))
                    collegeId updates) ;;
     return_ (successResponse memory (lit "Memory updated successfully") None))
    (notFoundOrError "[MemoryWall] Update memory error:" "Failed to update memory").

(** ** deleteMemory (DELETE /api/student/memory-wall/:id) *)

Definition deleteMemory (req : Request) : M unit :=
  tryCatch
    (let id := params_id req in
     let collegeId := js_or (college_id (user req)) (tenant req) in
     deletedMemory <- await (ServiceDelete id (user_id (user req)) collegeId)
                        (svc_deleteMemory memoryWallService id (user_id (user req))
                           collegeId) ;;
     return_ (successResponse deletedMemory (lit "Memory deleted successfully") None))
    (notFoundOrError "[MemoryWall] Delete memory error:" "Failed to delete memory").

(** ** getMemoryStats (GET /api/student/memory-wall/stats) *)

Definition getMemoryStats (req : Request) : M unit :=
  tryCatch
    (let collegeId := js_or (college_id (user req)) (tenant req) in
     stats <- await (ServiceStats (user_id (user req)) collegeId)
                (svc_getMemoryStats memoryWallService (user_id (user req)) collegeId) ;;
     return_ (successResponse stats (lit "Memory statistics retrieved successfully") None))
    (fun error =>
       logError "[MemoryWall] Get memory stats error:" error ;;
       return_ (errorResponse
                  (js_or (exn_message error) (VStr (lit "Failed to fetch memory statistics")))
                  500)).

(** ** Running a handler *)

(** A request served against a store at a given time, from an empty trace. *)
Definition serve (handler : Request -> M unit) (req : Request) (s : Store) (now : Z)
  : Completion unit * World :=
  handler req {| store := s; clock := now; trace := [] |}.

(** The response sent, if the handler returned one. *)
Definition responseOf (r : Completion unit * World) : option Response :=
  match fst r with
  | Return resp => Some resp
  | _ => None
  end.

(** The outside calls made while serving. *)
Definition eventsOf (r : Completion unit * World) : list Event := trace (snd r).

End Model.

Arguments Normal {Memory A} a.
Arguments Return {Memory A} r.
Arguments Throw {Memory A} e.
Arguments errorResponse {Memory} message statusCode.
Arguments notFoundResponse {Memory} message.
Arguments ret {Store Memory A} a _.
Arguments throw {Store Memory A} e _.
Arguments emit {Store Memory} e _.
Arguments log {Store Memory} line _.
Arguments logError {Store Memory} line e _.
Arguments newDate {Store Memory} _.
Arguments err400 {Store Memory A} message _.
Arguments trimOf {Store Memory} rt v _.
Arguments includesOf {Store Memory} rt v needle _.
Arguments notFoundOrError {Store Memory} rt line fallback error _.

(** ** A concrete runtime *)

(** Node's [path.posix.extname], statement by statement: one pass from the
    end of the path. *)
Module PosixPath.

Record Scan := {
  startDot : Z;
  startPart : Z;
  endAt : Z;
  matchedSlash : bool;
  preDotState : Z
}.

Definition scanStart : Scan :=
  {| startDot := -1; startPart := 0; endAt := -1; matchedSlash := true; preDotState := 0 |}.

(** The loop body at index [i], over the code units from [i] down to 0. *)
Fixpoint scan (downwards : list N) (i : Z) (st : Scan) : Scan :=
  match downwards with
  | [] => st
  | code :: rest =>
      if N.eqb code 47 then
        if negb (matchedSlash st) then
          {| startDot := startDot st; startPart := i + 1; endAt := endAt st;
             matchedSlash := matchedSlash st; preDotState := preDotState st |}
        else scan rest (i - 1) st
      else
        let st :=
          if endAt st =? -1 then
            {| startDot := startDot st; startPart := startPart st; endAt := i + 1;
               matchedSlash := false; preDotState := preDotState st |}
          else st in
        let st :=
          if N.eqb code 46 then
            if startDot st =? -1 then
              {| startDot := i; startPart := startPart st; endAt := endAt st;
                 matchedSlash := matchedSlash st; preDotState := preDotState st |}
            else if negb (preDotState st =? 1) then
              {| startDot := startDot st; startPart := startPart st; endAt := endAt st;
                 matchedSlash := matchedSlash st; preDotState := 1 |}
            else st
          else if negb (startDot st =? -1) then
            {| startDot := startDot st; startPart := startPart st; endAt := endAt st;
               matchedSlash := matchedSlash st; preDotState := -1 |}
          else st in
        scan rest (i - 1) st
  end%Z.

Definition slice (s : jstr) (from to : Z) : jstr :=
  firstn (Z.to_nat (to - from)) (skipn (Z.to_nat from) s).

Definition extname (path : jstr) : jstr :=
  let st := scan (rev path) (Z.of_nat (List.length path) - 1) scanStart in
  if ((startDot st =? -1) || (endAt st =? -1) || (preDotState st =? 0)
      || ((preDotState st =? 1) && (startDot st =? endAt st - 1)
          && (startDot st =? startPart st + 1)))%Z%bool
  then []
  else slice path (startDot st) (endAt st).

End PosixPath.

(** Lower-casing of the ASCII letters (the other code units are kept: the
    full Unicode mapping belongs to the engine). *)
Definition asciiLowerCase (s : jstr) : jstr :=
  map (fun c => if (N.leb 65 c && N.leb c 90)%bool then (c + 32)%N else c) s.

Module IsoDate.

Definition digit (c : N) : option Z :=
  if (N.leb 48 c && N.leb c 57)%bool then Some (Z.of_N c - 48)%Z else None.

Fixpoint number (s : jstr) (acc : Z) : option Z :=
  match s with
  | [] => Some acc
  | c :: r =>
      match digit c with
      | Some d => number r (acc * 10 + d)
      | None => None
      end
  end%Z.

Definition isLeap (y : Z) : bool :=
  ((y mod 4 =? 0) && (negb (y mod 100 =? 0) || (y mod 400 =? 0)))%Z%bool.

Definition daysInMonth (y m : Z) : Z :=
  (if m =? 2 then (if isLeap y then 29 else 28)
   else if (m =? 4) || (m =? 6) || (m =? 9) || (m =? 11) then 30 else 31)%Z.

(** Days from 1970-01-01 to the given civil date (proleptic Gregorian). *)
Definition daysFromCivil (y m d : Z) : Z :=
  (let y' := if m <=? 2 then y - 1 else y in
   let era := y' / 400 in
   let yoe := y' - era * 400 in
   let mp := (m + 9) mod 12 in
   let doy := (153 * mp + 2) / 5 + d - 1 in
   let doe := yoe * 365 + yoe / 4 - yoe / 100 + doy in
   era * 146097 + doe - 719468)%Z.

(** The date-only form YYYY-MM-DD, read as midnight UTC. *)
Definition parse (s : jstr) : option Z :=
  match s with
  | [y1; y2; y3; y4; 45%N; m1; m2; 45%N; d1; d2] =>
      match number [y1; y2; y3; y4] 0, number [m1; m2] 0, number [d1; d2] 0 with
      | Some y, Some m, Some d =>
          if ((1 <=? m) && (m <=? 12) && (1 <=? d) && (d <=? daysInMonth y m))%Z%bool
          then Some (daysFromCivil y m d * 86400000)%Z
          else None
      | _, _, _ => None
      end
  | _ => None
  end.

End IsoDate.

(** A runtime to evaluate the handlers on: the server's time zone is UTC,
    paths are posix, [Date] reads numbers (a time value), null, booleans and
    the ISO date-only form, TypeErrors carry V8-style text. *)
Definition utcRuntime (maxImageSize : option jstr) : Runtime :=
  {| date_parse := fun v =>
       match v with
       | VUndefined => None
       | VNull => Some 0%Z
       | VBool b => Some (if b then 1 else 0)%Z
       | VNum n => Some n
       | VStr s => IsoDate.parse s
       end;
     end_of_local_day := fun t => (t / 86400000 * 86400000 + 86399999)%Z;
     path_extname := PosixPath.extname;
     to_lower_case := asciiLowerCase;
     type_error_message := fun v m =>
       match v with
       | VUndefined => lit "Cannot read properties of undefined (reading '" ++ lit m ++ lit "')"
       | VNull => lit "Cannot read properties of null (reading '" ++ lit m ++ lit "')"
       | _ => lit m ++ lit " is not a function"
       end;
     env_MAX_IMAGE_SIZE := maxImageSize |}.

(** A service for evaluating the controller alone: every operation leaves the
    store as it is and completes with the given outcome; the profile query
    answers with the given result. *)
Definition fixedService {Store Memory : Type}
    (outcome : Exn + option Memory) (profile : QueryResult) : Service Store Memory :=
  {| svc_createMemory := fun _ _ _ _ s => (outcome, s);
     svc_getStudentMemories := fun _ _ _ s => (outcome, s);
     svc_getMemoryById := fun _ _ _ s => (outcome, s);
     svc_updateMemory := fun _ _ _ _ s => (outcome, s);
     svc_deleteMemory := fun _ _ _ s => (outcome, s);
     svc_getMemoryStats := fun _ _ s => (outcome, s);
     profiles_select_college_id := fun _ _ => profile |}.

(** ** The specification's reading of the create workflow *)

(** "First non-empty wins": the first truthy candidate, in order. *)
Definition firstNonEmpty (candidates : list jsval) : option jsval :=
  find truthy candidates.

(** The tenant id the profile lookup yields: [profile?.college_id]. *)
Definition profileTenant (r : QueryResult) : jsval :=
  match data r with
  | Some profile => profile_college_id profile
  | None => VUndefined
  end.

(** The field checks of create, in the order the specification lists them. *)
Inductive Violation :=
| PhotoMissing
| TitleBlank
| TitleTooLong
| DateMissing
| DateInvalid
| DateInFuture.

Definition checkOrder : list Violation :=
  [PhotoMissing; TitleBlank; TitleTooLong; DateMissing; DateInvalid; DateInFuture].

(** Whether a request, taken alone, violates a check. *)
Definition violates (rt : Runtime) (req : Request) (now : Z) (v : Violation) : bool :=
  match v with
  | PhotoMissing =>
      match snd (uploadMiddleware rt (upload req)) with
      | None => true
      | Some _ => false
      end
  | TitleBlank =>
      match body_title req with
      | VStr s => eqb (trim s) []
      | other => negb (truthy other)
      end
  | TitleTooLong =>
      match body_title req with
      | VStr s => (200 <? List.length (trim s))%nat
      | _ => false
      end
  | DateMissing => negb (truthy (body_date req))
  | DateInvalid =>
      match date_parse rt (body_date req) with
      | None => true
      | Some _ => false
      end
  | DateInFuture =>
      match date_parse rt (body_date req) with
      | Some t => (end_of_local_day rt now <? t)%Z
      | None => false
      end
  end.

Definition firstViolation (rt : Runtime) (req : Request) (now : Z) : option Violation :=
  find (violates rt req now) checkOrder.

(** The message the controller answers each violation with. *)
Definition violationMessage (v : Violation) : string :=
  match v with
  | PhotoMissing => "Photo is required. Please choose a photo."
  | TitleBlank => "Title is required"
  | TitleTooLong => "Title must not exceed 200 characters"
  | DateMissing => "Date is required"
  | DateInvalid => "Invalid date format"
  | DateInFuture => "Memory date cannot be in the future"
  end.

(** A form field that is a string when it is there at all (a truthy value of
    another type has no [trim]). *)
Definition textOrFalsy (v : jsval) : bool :=
  match v with
  | VStr _ => true
  | other => negb (truthy other)
  end.

(** A create request that gets past the upload middleware and the field
    checks. *)
Definition passesValidation (rt : Runtime) (req : Request) (now : Z) : bool :=
  match fst (uploadMiddleware rt (upload req)) with
  | None => true
  | Some _ => false
  end
  && textOrFalsy (body_title req)
  && match firstViolation rt req now with
     | None => true
     | Some _ => false
     end.

(** A title member of an update body that is a string or absent. *)
Definition textOrUndefined (v : jsval) : bool :=
  match v with
  | VStr _ | VUndefined => true
  | _ => false
  end.

(** The message createMemory answers with when no tenant id is found. *)
Definition collegeIdNotFound : jstr :=
  lit "College ID not found. Please update your profile.".

(** The calls of a trace that leave the process: everything but the console. *)
Definition isOutsideCall (e : Event) : bool :=
  match e with
  | Log _ | LogError _ _ => false
  | _ => true
  end.

Definition outsideCalls (events : list Event) : list Event :=
  filter isOutsideCall events.

(** What it means for a handler to pass the tenant id through: it does not
    query the profile table, it does not answer that the tenant id is
    missing, and every call to the persistence service carries the request's
    own tenant value. *)
Definition tenantPassedThrough {Store Memory : Type} (req : Request)
    (r : Completion Memory unit * World Store) : Prop :=
  existsb isProfileQuery (eventsOf r) = false /\
  responseOf r <> Some (errorResponse (VStr collegeIdNotFound) 400) /\
  (forall e c, In e (eventsOf r) -> serviceTenant e = Some c -> c = tenant req).

(** ** The persistence service of the specification *)

Module SpecService.

(** Modelled from the spec: memoryWall.service.js is not among the sources.
    The Memory entity of the data model. *)
Record Memory := {
  id : jsval;
  title : jsval;
  date : jsval;
  description : jsval;
  photo : jsval;
  ownerUserId : jsval;
  tenantId : jsval
}.

Definition Store := list Memory.

(** Modelled from the spec: the target of update and delete "must match
    both ownerUserId and tenantId". *)
Definition isTarget (memoryId userId collegeId : jsval) (m : Memory) : bool :=
  jsval_eqb (id m) memoryId && jsval_eqb (ownerUserId m) userId
  && jsval_eqb (tenantId m) collegeId.

(** Modelled from the spec: only title, date and description are mutable; an
    absent field is left unchanged, a description is trimmed when it is text
    and cleared when it is null or empty. *)
Definition applyUpdates (updates : JsObject) (m : Memory) : Memory :=
  {| id := id m;
     title := if isDefined (getProp "title" updates) then getProp "title" updates else title m;
     date := if isDefined (getProp "date" updates) then getProp "date" updates else date m;
     description :=
       match getProp "description" updates with
       | VUndefined => description m
       | VStr d => if eqb (trim d) [] then VNull else VStr (trim d)
       | _ => VNull
       end;
     photo := photo m;
     ownerUserId := ownerUserId m;
     tenantId := tenantId m |}.

Fixpoint replaceTarget (memoryId userId collegeId : jsval) (m' : Memory) (s : Store) : Store :=
  match s with
  | [] => []
  | m :: r =>
      if isTarget memoryId userId collegeId m then m' :: r
      else m :: replaceTarget memoryId userId collegeId m' r
  end.

(** Modelled from the spec: update fails with the NotFoundError (one message,
    whatever the cause) unless a Memory matches id, owner and tenant. *)
Definition updateMemory (notFound : jstr) (memoryId userId collegeId : jsval)
    (updates : JsObject) (s : Store) : (Exn + option Memory) * Store :=
  match find (isTarget memoryId userId collegeId) s with
  | None => (inl (JsError (VStr notFound)), s)
  | Some m =>
      let m' := applyUpdates updates m in
      (inr (Some m'), replaceTarget memoryId userId collegeId m' s)
  end.

(** Modelled from the spec: delete has "the same ownership/tenant matching and
    not-found semantics as update" and returns the deleted record. *)
Definition deleteMemory (notFound : jstr) (memoryId userId collegeId : jsval)
    (s : Store) : (Exn + option Memory) * Store :=
  match find (isTarget memoryId userId collegeId) s with
  | None => (inl (JsError (VStr notFound)), s)
  | Some m =>
      (inr (Some m), filter (fun x => negb (isTarget memoryId userId collegeId x)) s)
  end.

(** The service with update and delete as specified; the operations the
    not-found contract does not concern are those of [base]. *)
Definition service (notFound : jstr) (base : Service Store Memory) : Service Store Memory :=
  {| svc_createMemory := svc_createMemory base;
     svc_getStudentMemories := svc_getStudentMemories base;
     svc_getMemoryById := svc_getMemoryById base;
     svc_updateMemory := updateMemory notFound;
     svc_deleteMemory := deleteMemory notFound;
     svc_getMemoryStats := svc_getMemoryStats base;
     profiles_select_college_id := profiles_select_college_id base |}.

(** No Memory of the store has the id. *)
Definition targetAbsent (memoryId : jsval) (s : Store) : bool :=
  forallb (fun m => negb (jsval_eqb (id m) memoryId)) s.

(** A Memory of the store has the id, and none with the id has both the
    owner and the tenant of the caller. *)
Definition targetForeign (memoryId userId collegeId : jsval) (s : Store) : bool :=
  existsb (fun m => jsval_eqb (id m) memoryId) s
  && forallb (fun m => negb (isTarget memoryId userId collegeId m)) s.

End SpecService.

(** ** Reasoning about statements *)

Section Wp.

Variables Store Memory : Type.

(** [wp m w Q]: running [m] from [w] ends in a completion and a world that
    satisfy [Q]. *)
Definition wp {A} (m : M Store Memory A) (w : World Store)
    (Q : Completion Memory A -> World Store -> Prop) : Prop :=
  Q (fst (m w)) (snd (m w)).

(** What [bind m k] asks of [m]. *)
Definition bindPost {A B} (k : A -> M Store Memory B)
    (Q : Completion Memory B -> World Store -> Prop)
    (c : Completion Memory A) (w : World Store) : Prop :=
  match c with
  | Normal a => wp (k a) w Q
  | Return r => Q (Return r) w
  | Throw e => Q (Throw e) w
  end.

(** What [tryCatch body handler] asks of [body]. *)
Definition catchPost {A} (handler : Exn -> M Store Memory A)
    (Q : Completion Memory A -> World Store -> Prop)
    (c : Completion Memory A) (w : World Store) : Prop :=
  match c with
  | Throw e => wp (handler e) w Q
  | other => Q other w
  end.

(** The world after one more outside call. *)
Definition extend (w : World Store) (e : Event) : World Store :=
  {| store := store w; clock := clock w; trace := trace w ++ [e] |}.

End Wp.

Arguments lit : simpl never.
Arguments trim : simpl never.
Arguments includes : simpl never.

(** ** Sample requests *)

Module Sample.

Definition student (collegeId : jsval) : User :=
  {| user_id := VStr (lit "student-7");
     role := VStr (lit "student");
     college_id := collegeId |}.

Definition photo (name : string) (bytes : Z) : File :=
  {| originalname := lit name; size := bytes; mimetype := lit "image/jpeg" |}.

(** 2024-03-01T13:33:20Z. *)
Definition noon : Z := 1709300000000.

Definition today : jsval := VStr (lit "2024-03-01").

Definition tomorrow : jsval := VStr (lit "2024-03-02").

(** A multipart create request. *)
Definition create (u : User) (tenantOfRequest title date description : jsval)
    (part : Upload) : Request :=
  {| user := u;
     tenant := tenantOfRequest;
     params_id := VUndefined;
     body_title := title;
     body_date := date;
     body_description := description;
     query_search := VUndefined;
     query_startDate := VUndefined;
     query_endDate := VUndefined;
     upload := part |}.

(** A request on /:id with a JSON body. *)
Definition onMemory (u : User) (tenantOfRequest memoryId title date description : jsval)
    : Request :=
  {| user := u;
     tenant := tenantOfRequest;
     params_id := memoryId;
     body_title := title;
     body_date := date;
     body_description := description;
     query_search := VUndefined;
     query_startDate := VUndefined;
     query_endDate := VUndefined;
     upload := NoUpload |}.

Definition noProfile : QueryResult := {| data := None; error := None |}.

Definition profileOf (collegeId : jsval) : QueryResult :=
  {| data := Some {| profile_college_id := collegeId |}; error := None |}.

(** The scenario of the specification: "Field Trip", today, a 2 MB JPEG. *)
Definition fieldTrip (u : User) (tenantOfRequest : jsval) : Request :=
  create u tenantOfRequest (VStr (lit "  Field Trip ")) today VUndefined
    (PhotoUpload (photo "trip.JPG" 2097152)).

(** The runtime of the samples: no MAX_IMAGE_SIZE in the environment. *)
Definition runtime : Runtime := utcRuntime None.

(** The same with MAX_IMAGE_SIZE=5242880 (5 MiB). *)
Definition runtime5MiB : Runtime := utcRuntime (Some (lit "5242880")).

(** A service that stores nothing and returns a record. *)
Definition accepting (profile : QueryResult) : Service unit unit :=
  fixedService (inr (Some tt)) profile.

(** A service whose operations all fail with the given message. *)
Definition failing (message : string) : Service unit unit :=
  fixedService (inl (JsError (VStr (lit message)))) noProfile.

(** A Memory of the specification's store. *)
Definition memory (memoryId owner college : string) : SpecService.Memory :=
  {| SpecService.id := VStr (lit memoryId);
     SpecService.title := VStr (lit "Sports day");
     SpecService.date := VStr (lit "2024-02-10");
     SpecService.description := VNull;
     SpecService.photo := VStr (lit "memories/sports-day.jpg");
     SpecService.ownerUserId := VStr (lit owner);
     SpecService.tenantId := VStr (lit college) |}.

End Sample.

(** ** Two runs side by side *)

Section Sim.

Variables Store Memory : Type.

(** Two worlds that differ at most in the store. *)
Definition agree (w1 w2 : World Store) : Prop :=
  clock w1 = clock w2 /\ trace w1 = trace w2.

(** [sim I m1 m2]: from worlds that agree and whose stores are related by
    [I], the two statements complete alike and leave worlds that agree. *)
Definition sim {A} (I : Store -> Store -> Prop) (m1 m2 : M Store Memory A) : Prop :=
  forall w1 w2, agree w1 w2 -> I (store w1) (store w2) ->
    fst (m1 w1) = fst (m2 w2) /\ agree (snd (m1 w1)) (snd (m2 w2)).

(** [keep I m1 m2]: as [sim], and the stores are still related afterwards. *)
Definition keep {A} (I : Store -> Store -> Prop) (m1 m2 : M Store Memory A) : Prop :=
  forall w1 w2, agree w1 w2 -> I (store w1) (store w2) ->
    fst (m1 w1) = fst (m2 w2) /\ agree (snd (m1 w1)) (snd (m2 w2)) /\
    I (store (snd (m1 w1))) (store (snd (m2 w2))).

End Sim.

(** ** What the other handlers hand to the service *)

(** The query parameters getAllMemories keeps: the truthy ones, in the order
    it looks at them. *)
Definition queryFilters (req : Request) : JsObject :=
  filter (fun kv => truthy (snd kv))
    [("search"%string, query_search req);
     ("startDate"%string, query_startDate req);
     ("endDate"%string, query_endDate req)].

(** The members of an update body that are there, in the order updateMemory
    looks at them. *)
Definition definedFields (req : Request) : JsObject :=
  filter (fun kv => isDefined (snd kv))
    [("title"%string, body_title req);
     ("date"%string, body_date req);
     ("description"%string, body_description req)].

(** The checks of updateMemory, in the order of the source. *)
Inductive UpdateViolation :=
| EmptyTitle
| LongTitle
| InvalidDate
| FutureDate
| NoFields.

Definition updateCheckOrder : list UpdateViolation :=
  [EmptyTitle; LongTitle; InvalidDate; FutureDate; NoFields].

(** Whether an update request, taken alone, violates a check.  A check on a
    member applies when the member is there. *)
Definition updateViolates (rt : Runtime) (req : Request) (now : Z) (v : UpdateViolation)
  : bool :=
  match v with
  | EmptyTitle =>
      match body_title req with
      | VStr s => eqb (trim s) []
      | _ => false
      end
  | LongTitle =>
      match body_title req with
      | VStr s => (200 <? List.length (trim s))%nat
      | _ => false
      end
  | InvalidDate =>
      isDefined (body_date req) &&
      match date_parse rt (body_date req) with
      | None => true
      | Some _ => false
      end
  | FutureDate =>
      isDefined (body_date req) &&
      match date_parse rt (body_date req) with
      | Some t => (end_of_local_day rt now <? t)%Z
      | None => false
      end
  | NoFields =>
      negb (isDefined (body_title req)) && negb (isDefined (body_date req))
      && negb (isDefined (body_description req))
  end.

Definition firstUpdateViolation (rt : Runtime) (req : Request) (now : Z)
  : option UpdateViolation :=
  find (updateViolates rt req now) updateCheckOrder.

(** The message updateMemory answers each violation with. *)
Definition updateViolationMessage (v : UpdateViolation) : string :=
  match v with
  | EmptyTitle => "Title cannot be empty"
  | LongTitle => "Title must not exceed 200 characters"
  | InvalidDate => "Invalid date format"
  | FutureDate => "Memory date cannot be in the future"
  | NoFields => "No valid fields to update"
  end.

(** Whether a thrown value's message is a string. *)
Definition messageText (e : Exn) : option jstr :=
  match exn_message e with
  | VStr m => Some m
  | _ => None
  end.

(** The test of the catch block of updateMemory and deleteMemory on a
    message. *)
Definition saysNotFound (m : jstr) : bool :=
  includes m (lit "not found") || includes m (lit "permission").

(** ** On whose behalf the handlers call *)

(** The user argument of a call to the persistence service or to the profile
    table. *)
Definition serviceUser (e : Event) : option jsval :=
  match e with
  | ProfileQuery u | ServiceCreate _ _ u _ | ServiceList u _ _ | ServiceGet _ u _
  | ServiceUpdate _ u _ _ | ServiceDelete _ u _ | ServiceStats u _ => Some u
  | Log _ | LogError _ _ => None
  end.

(** The memory id argument of a call to the persistence service. *)
Definition serviceMemoryId (e : Event) : option jsval :=
  match e with
  | ServiceGet i _ _ | ServiceUpdate i _ _ _ | ServiceDelete i _ _ => Some i
  | _ => None
  end.

(** Every call of a run is made for the authenticated user and, when it
    names a memory, for the memory of the path. *)
Definition actsForRequester {Store Memory : Type} (req : Request)
    (r : Completion Memory unit * World Store) : Prop :=
  forall e, In e (eventsOf r) ->
    (forall u, serviceUser e = Some u -> u = user_id (user req)) /\
    (forall i, serviceMemoryId e = Some i -> i = params_id req).

(** ** ThemeContext: the theme provider *)

(** The provider is modelled between events: its state, the class list of
    the root element and the local storage.  The storage is one that accepts
    the write (no quota or security error), and a theme name is a [jsval]: a
    function given to [setCurrentTheme] would be an updater, and is outside
    the model, as is the lookup [themes[currentTheme]]. *)

Module Theme.

(** [root.classList]: the tokens of the class attribute, in order. *)
Definition ClassList := list jstr.

(** [classList.remove(...tokens)]. *)
Definition classListRemove (tokens : list jstr) (l : ClassList) : ClassList :=
  filter (fun c => negb (arrayIncludes tokens c)) l.

(** [classList.add(token)]: a token that is there is not added again. *)
Definition classListAdd (token : jstr) (l : ClassList) : ClassList :=
  if arrayIncludes l token then l else l ++ [token].

(** [localStorage]: keys and values are strings. *)
Definition Storage := list (jstr * jstr).

(** [localStorage.getItem(k)]: [None] is null. *)
Fixpoint getItem (k : jstr) (st : Storage) : option jstr :=
  match st with
  | [] => None
  | (k', v) :: r => if eqb k' k then Some v else getItem k r
  end.

(** [localStorage.setItem(k, v)]. *)
Fixpoint setItem (k v : jstr) (st : Storage) : Storage :=
  match st with
  | [] => [(k, v)]
  | (k', v') :: r => if eqb k' k then (k, v) :: r else (k', v') :: setItem k v r
  end.

(** What the provider touches of [window]: the class list of
    [document.documentElement] and the local storage. *)
Record Browser := {
  classList : ClassList;
  localStorage : Storage
}.

Definition storageKey : jstr := lit "sensease-theme".

Section Provider.

(** The engine's Number::toString (the theme is stored through ToString). *)
Variable numberToString : Z -> jstr.

(** ToString. *)
Definition toString (v : jsval) : jstr :=
  match v with
  | VUndefined => lit "undefined"
  | VNull => lit "null"
  | VBool true => lit "true"
  | VBool false => lit "false"
  | VNum n => numberToString n
  | VStr s => s
  end.

(** The initializer of [useState]: [None] is a render without [window]. *)
Definition initialTheme (window : option Browser) : jsval :=
  match window with
  | Some b =>
      js_or (match getItem storageKey (localStorage b) with
             | Some s => VStr s
             | None => VNull
             end)
            (VStr (lit "ocean"))
  | None => VStr (lit "ocean")
  end.

(** The body of the effect, for a value of [currentTheme]. *)
Definition applyTheme (currentTheme : jsval) (b : Browser) : Browser :=
  let classes := classListRemove [lit "light"; lit "dark"] (classList b) in
  let classes :=
    if jsval_eqb currentTheme (VStr (lit "midnight"))
    then classListAdd (lit "dark") classes
    else classListAdd (lit "light") classes in
  {| classList := classes;
     localStorage := setItem storageKey (toString currentTheme) (localStorage b) |}.

(** The provider between two events: its state and the browser. *)
Record Provider := {
  currentTheme : jsval;
  browser : Browser
}.

(** The first render in a browser: React runs the initializer, then the
    effect. *)
Definition mount (b : Browser) : Provider :=
  let theme := initialTheme (Some b) in
  {| currentTheme := theme; browser := applyTheme theme b |}.

(** [changeTheme(themeName)]: React keeps the state when it is set to the
    value it has, and runs the effect after a render in which
    [currentTheme] changed. *)
Definition changeTheme (themeName : jsval) (p : Provider) : Provider :=
  if jsval_eqb themeName (currentTheme p) then p
  else {| currentTheme := themeName; browser := applyTheme themeName (browser p) |}.

(** A provider after a sequence of calls to [changeTheme]. *)
Definition afterChanges (themeNames : list jsval) (p : Provider) : Provider :=
  fold_left (fun q name => changeTheme name q) themeNames p.

(** The storage and the class list say what the state says. *)
Definition inSync (p : Provider) : Prop :=
  getItem storageKey (localStorage (browser p)) = Some (toString (currentTheme p)) /\
  (In (lit "dark") (classList (browser p)) <-> currentTheme p = VStr (lit "midnight")) /\
  (In (lit "light") (classList (browser p)) <-> currentTheme p <> VStr (lit "midnight")).

End Provider.

End Theme.

(** * Properties *)

Unset Implicit Arguments.

(** ** The library models on known values *)

Example trim_strips_both_ends : trim (lit "  Field Trip ") = lit "Field Trip".
Proof. reflexivity. Qed.

Example trim_of_blanks : trim [9%N; 32%N; 160%N; 8232%N; 65279%N] = [].
Proof. reflexivity. Qed.

Example parseInt_values :
  map parseInt [lit "5242880"; lit " -12abc"; lit "0x1F"; lit "abc"; lit ""; lit "0"]
  = [Some 5242880; Some (-12); Some 31; None; None; Some 0]%Z.
Proof. reflexivity. Qed.

Example extname_values :
  map PosixPath.extname
    [lit "index.html"; lit "index.coffee.md"; lit "index."; lit "index";
     lit ".index"; lit ".index.md"; lit "a.b/c"; lit "photo.JPG/"; lit ".."]
  = [lit ".html"; lit ".md"; lit "."; lit ""; lit ""; lit ".md"; lit ""; lit ".JPG"; lit ""].
Proof. reflexivity. Qed.

Example isoDate_values :
  map IsoDate.parse [lit "1970-01-02"; lit "2024-03-01"; lit "2024-02-30"; lit "March 1"]
  = [Some 86400000; Some 1709251200000; None; None]%Z.
Proof. reflexivity. Qed.

Example end_of_sample_day :
  end_of_local_day Sample.runtime Sample.noon = 1709337599999%Z.
Proof. reflexivity. Qed.

Example default_limit : fileSizeLimit Sample.runtime = 10485760%Z.
Proof. reflexivity. Qed.

(** ** Rules for statements *)

Section WpRules.

Variables Store Memory : Type.

Lemma wp_bind A B (m : M Store Memory A) (k : A -> M Store Memory B) w Q :
  wp m w (bindPost k Q) -> wp (bind m k) w Q.
Proof.
  unfold wp, bindPost, bind. destruct (m w) as [[a|r|e] w']; cbn; auto.
Qed.

Lemma wp_tryCatch A (body : M Store Memory A) handler w Q :
  wp body w (catchPost handler Q) -> wp (tryCatch body handler) w Q.
Proof.
  unfold wp, catchPost, tryCatch. destruct (body w) as [[a|r|e] w']; cbn; auto.
Qed.

Lemma wp_ret A (a : A) w (Q : Completion Memory A -> World Store -> Prop) :
  Q (Normal a) w -> wp (ret a) w Q.
Proof. auto. Qed.

Lemma wp_return A r w (Q : Completion Memory A -> World Store -> Prop) :
  Q (Return r) w -> wp (return_ r) w Q.
Proof. auto. Qed.

Lemma wp_throw A e w (Q : Completion Memory A -> World Store -> Prop) :
  Q (Throw e) w -> wp (throw e) w Q.
Proof. auto. Qed.

Lemma wp_emit e w (Q : Completion Memory unit -> World Store -> Prop) :
  Q (Normal tt) (extend w e) -> wp (emit e) w Q.
Proof. auto. Qed.

Lemma wp_newDate w (Q : Completion Memory Z -> World Store -> Prop) :
  Q (Normal (clock w)) w -> wp newDate w Q.
Proof. auto. Qed.

Lemma wp_await e call w (Q : Completion Memory (option Memory) -> World Store -> Prop) :
  (forall r s', call (store w) = (r, s') ->
     match r with
     | inl err => Q (Throw err) {| store := s'; clock := clock w; trace := trace w ++ [e] |}
     | inr v => Q (Normal v) {| store := s'; clock := clock w; trace := trace w ++ [e] |}
     end) ->
  wp (await e call) w Q.
Proof.
  unfold wp, await. intros H. destruct (call (store w)) as [r s'] eqn:E.
  specialize (H r s' eq_refl). destruct r; exact H.
Qed.

Lemma wp_awaitProfile (svc : Service Store Memory) u w
    (Q : Completion Memory QueryResult -> World Store -> Prop) :
  Q (Normal (profiles_select_college_id svc u (store w))) (extend w (ProfileQuery u)) ->
  wp (awaitProfile svc u) w Q.
Proof. auto. Qed.

(** A property of a served request is a postcondition of the handler run
    from the empty trace. *)
Lemma serve_wp (handler : Request -> M Store Memory unit) req s now
    (P : Completion Memory unit * World Store -> Prop) :
  wp (handler req) {| store := s; clock := now; trace := [] |} (fun c w => P (c, w)) ->
  P (serve handler req s now).
Proof.
  unfold wp, serve. destruct (handler req _); auto.
Qed.

End WpRules.

(** ** Strings *)

Lemma eqb_eq (a b : jstr) : eqb a b = true <-> a = b.
Proof.
  revert b. induction a as [|x a IH]; intros [|y b]; cbn; split; intros H;
    try discriminate; try reflexivity.
  - apply andb_true_iff in H. destruct H as [Hx Hab].
    apply N.eqb_eq in Hx. apply IH in Hab. congruence.
  - inversion H; subst. rewrite N.eqb_refl. cbn. apply IH. reflexivity.
Qed.

Lemma eqb_refl (a : jstr) : eqb a a = true.
Proof. apply eqb_eq. reflexivity. Qed.

Lemma trim_nil : trim [] = [].
Proof. reflexivity. Qed.

Lemma falsy_textOrFalsy (v : jsval) : truthy v = false -> textOrFalsy v = true.
Proof. destruct v; cbn; intros H; rewrite ?H; reflexivity. Qed.

Lemma isDefined_false (v : jsval) : isDefined v = false -> v = VUndefined.
Proof. destruct v; cbn; congruence. Qed.

Lemma arrayIncludes_In (l : list jstr) (x : jstr) :
  arrayIncludes l x = true <-> In x l.
Proof.
  unfold arrayIncludes. rewrite existsb_exists. split.
  - intros [y [Hin Heq]]. apply eqb_eq in Heq. subst. exact Hin.
  - intros Hin. exists x. split; [exact Hin | apply eqb_refl].
Qed.

(** ** Traces *)

Lemma existsb_outsideCalls (p : Event -> bool) (l : list Event) :
  (forall e, p e = true -> isOutsideCall e = true) ->
  existsb p (outsideCalls l) = existsb p l.
Proof.
  intros Hp. unfold outsideCalls. induction l as [|e l IH]; [reflexivity|].
  cbn [filter existsb]. destruct (isOutsideCall e) eqn:E; cbn [existsb]; rewrite IH;
    [reflexivity|].
  destruct (p e) eqn:Ep; [|reflexivity].
  apply Hp in Ep. congruence.
Qed.

Lemma In_outsideCalls (e : Event) (l : list Event) :
  isOutsideCall e = true -> (In e (outsideCalls l) <-> In e l).
Proof.
  intros He. unfold outsideCalls. rewrite filter_In. tauto.
Qed.

Lemma profileQuery_outside e : isProfileQuery e = true -> isOutsideCall e = true.
Proof. destruct e; cbn; congruence. Qed.

Lemma serviceCreate_outside e : isServiceCreate e = true -> isOutsideCall e = true.
Proof. destruct e; cbn; congruence. Qed.

Lemma serviceUpdate_outside e : isServiceUpdate e = true -> isOutsideCall e = true.
Proof. destruct e; cbn; congruence. Qed.

Ltac wp_simpl :=
  cbv beta iota zeta delta [bindPost catchPost extend];
  cbn [store clock trace fst snd].

(** Case analysis on a scrutinee, remembering the case in the hypotheses. *)
Ltac split_on x :=
  first [ is_var x; destruct x
        | let E := fresh "E" in destruct x eqn:E; rewrite ?E in * ].

(** A scrutinee the path has already decided. *)
Ltac known x := match goal with E : x = _ |- _ => rewrite E end.

(** A value whose kind is already known. *)
Ltac is_value v :=
  lazymatch v with
  | VUndefined => idtac
  | VNull => idtac
  | VBool _ => idtac
  | VNum _ => idtac
  | VStr _ => idtac
  end.

(** The outcome of a service call that the context already tells. *)
Ltac known_call E :=
  match type of E with
  | ?call = _ =>
      match goal with
      | H : call = _ |- _ =>
          lazymatch H with
          | E => fail
          | _ => rewrite H in E; inversion E; subst
          end
      end
  end.

(** What a condition ultimately branches on. *)
Ltac inner_scrut c :=
  match c with
  | negb ?c' => inner_scrut c'
  | context [match ?x with _ => _ end] => inner_scrut x
  | _ => c
  end.

(** One statement of the handler. *)
Ltac wp_step :=
  lazymatch goal with
  | |- wp (bind _ _) _ _ => apply wp_bind
  | |- wp (tryCatch _ _) _ _ => apply wp_tryCatch
  | |- wp (ret _) _ _ => apply wp_ret
  | |- wp (return_ _) _ _ => apply wp_return
  | |- wp (throw _) _ _ => apply wp_throw
  | |- wp (emit _) _ _ => apply wp_emit
  | |- wp (log _) _ _ => unfold log
  | |- wp (logError _ _) _ _ => unfold logError
  | |- wp (err400 _) _ _ => unfold err400
  | |- wp newDate _ _ => apply wp_newDate
  | |- wp (when _ _) _ _ => unfold when
  | |- wp (notFoundOrError _ _ _ _) _ _ => unfold notFoundOrError
  | |- wp (awaitProfile _ _) _ _ => apply wp_awaitProfile
  | |- wp (await _ _) _ _ =>
      apply wp_await;
      let r := fresh "r" in let s' := fresh "s'" in let E := fresh "Ecall" in
      intros r s' E; cbn [store clock trace] in E;
      first [ known_call E | destruct r ]
  | |- wp (trimOf _ ?v) _ _ =>
      first [is_value v | known v | split_on v]; unfold trimOf
  | |- wp (includesOf _ ?v _) _ _ =>
      first [is_value v | known v | split_on v]; unfold includesOf
  | |- wp (if ?c then _ else _) _ _ =>
      let x := inner_scrut c in first [known x | split_on x]
  | |- wp (match ?x with _ => _ end) _ _ =>
      let y := inner_scrut x in first [known y | split_on y]
  end; wp_simpl.

Ltac prune :=
  cbn [find violates negb truthy textOrFalsy textOrUndefined fst snd isDefined
       exn_message andb orb] in *;
  repeat match goal with
         | H : ?b = true |- _ => is_var b; subst b
         | H : ?b = false |- _ => is_var b; subst b
         end;
  try discriminate; try congruence.

Ltac wp_run := unfold js_or; repeat (wp_step; prune).

(** Boolean facts about strings, as equations. *)
Ltac strings :=
  repeat match goal with
         | H : negb _ = true |- _ => apply negb_true_iff in H
         | H : negb _ = false |- _ => apply negb_false_iff in H
         | H : eqb ?s [] = true |- _ => apply eqb_eq in H; subst s
         end;
  rewrite ?trim_nil in *; cbn [eqb] in *; try discriminate; try congruence.

(** Case analysis on what the hypotheses still branch on. *)
Ltac hyp_cases :=
  repeat (match goal with
          | H : context [match ?x with _ => _ end] |- _ =>
              lazymatch x with
              | context [match _ with _ => _ end] => fail
              | _ => split_on x
              end
          end; prune).

(** At the end of a path: the response and the trace are explicit. *)
Ltac finish :=
  cbn [responseOf eventsOf fst snd trace app existsb isServiceCreate isServiceUpdate
       isProfileQuery serviceTenant orb In outsideCalls isOutsideCall filter] in *.

Section Properties.
Variables Store Memory : Type.
Variable rt : Runtime.
Variable svc : Service Store Memory.

(** ** createMemory: validation *)

(** The first violated check decides the answer of createMemory, and the
    service is not asked to create anything. *)
Lemma create_rejects_first_violation req s now v :
  firstViolation rt req now = Some v ->
  existsb isServiceCreate (eventsOf (serve (createMemory rt svc) req s now)) = false /\
  (fst (uploadMiddleware rt (upload req)) = None ->
   textOrFalsy (body_title req) = true ->
   responseOf (serve (createMemory rt svc) req s now)
     = Some (errorResponse (VStr (lit (violationMessage v))) 400)).
Proof.
  intros Hv.
  unfold firstViolation, checkOrder in Hv. cbn [find violates] in Hv.
  pattern (serve (createMemory rt svc) req s now). apply serve_wp.
  unfold createMemory.
  destruct (uploadMiddleware rt (upload req)) as [err file] eqn:Eup.
  cbn [fst snd] in *.
  wp_run.
  all: finish.
  all: split; [reflexivity|]; intros; try discriminate.
  all: hyp_cases; strings.
  all: inversion Hv; subst; reflexivity.
Qed.

(** C2. createMemory checks, in this order, photo presence, title
    presence/blankness, trimmed title length (at most 200), date presence,
    date format and date-not-in-future; the first check that fails decides
    the answer, a 400 with a message of its own; and whenever a check fails
    the service's create operation is not invoked. *)
Theorem create_validation_order req s now :
  let r := serve (createMemory rt svc) req s now in
  NoDup (map violationMessage checkOrder) /\
  (forall v, firstViolation rt req now = Some v ->
     existsb isServiceCreate (eventsOf r) = false /\
     (fst (uploadMiddleware rt (upload req)) = None ->
      textOrFalsy (body_title req) = true ->
      responseOf r = Some (errorResponse (VStr (lit (violationMessage v))) 400))).
Proof.
  cbv zeta. split.
  - cbn. repeat constructor; cbn; intuition discriminate.
  - intros v Hv. destruct (create_rejects_first_violation req s now v Hv) as [Hno Hresp].
    split; [exact Hno|]. intros Hup Htext. auto.
Qed.

(** ** createMemory: after validation *)

Lemma length_trimmed (t : jstr) :
  eqb (trim t) [] = false ->
  (200 <? List.length (trim t))%nat = false ->
  (1 <= List.length (trim t) <= 200)%nat.
Proof.
  intros Hne Hle. apply Nat.ltb_ge in Hle. split; [|exact Hle].
  destruct (trim t); [discriminate | cbn; lia].
Qed.

(** What a request that passes validation looks like. *)
Lemma validated_facts req now :
  passesValidation rt req now = true ->
  exists f t ms,
    uploadMiddleware rt (upload req) = (None, Some f) /\
    body_title req = VStr t /\
    eqb t [] = false /\
    eqb (trim t) [] = false /\
    (200 <? List.length (trim t))%nat = false /\
    truthy (body_date req) = true /\
    date_parse rt (body_date req) = Some ms /\
    (end_of_local_day rt now <? ms)%Z = false.
Proof.
  unfold passesValidation, firstViolation, checkOrder. cbn [find violates].
  intros H. apply andb_true_iff in H. destruct H as [H Hviol].
  apply andb_true_iff in H. destruct H as [Herr Htext].
  destruct (uploadMiddleware rt (upload req)) as [err file].
  cbn [fst snd] in *.
  hyp_cases.
  eexists _, _, _. repeat split; try reflexivity; strings.
  destruct (eqb s []) eqn:Es; [|reflexivity]. strings.
Qed.

(** A request that passes validation: whom createMemory calls, and what it
    answers. *)
Lemma create_after_validation req s now :
  passesValidation rt req now = true ->
  let r := serve (createMemory rt svc) req s now in
  let uid := user_id (user req) in
  let session := college_id (user req) in
  let context := tenant req in
  let lookup := profileTenant (profiles_select_college_id svc uid s) in
  let query := if truthy session || truthy context then [] else [ProfileQuery uid] in
  exists f t,
    uploadMiddleware rt (upload req) = (None, Some f) /\
    body_title req = VStr t /\
    match firstNonEmpty [session; context; lookup] with
    | None =>
        responseOf r = Some (errorResponse (VStr collegeIdNotFound) 400) /\
        outsideCalls (eventsOf r) = query
    | Some c =>
        (textOrFalsy (body_description req) = false ->
           outsideCalls (eventsOf r) = query /\
           exists m, responseOf r = Some (errorResponse m 500)) /\
        (textOrFalsy (body_description req) = true ->
           exists d,
             data_title d = trim t /\
             data_date d = body_date req /\
             data_description d
               = (if truthy (body_description req)
                  then match body_description req with
                       | VStr x => VStr (trim x)
                       | other => other
                       end
                  else VNull) /\
             outsideCalls (eventsOf r) = query ++ [ServiceCreate d f uid c] /\
             forall res s', svc_createMemory svc d f uid c s = (res, s') ->
               match res with
               | inr m =>
                   responseOf r
                     = Some (successResponse m (lit "Memory created successfully")
                               (Some 201%Z))
               | inl e =>
                   responseOf r
                     = Some (errorResponse
                               (js_or (exn_message e) (VStr (lit "Failed to create memory")))
                               500) /\
                   In (LogError "[MemoryWall] Create memory error:" e) (eventsOf r) /\
                   In (LogError "[MemoryWall] Error stack:" e) (eventsOf r)
               end)
    end.
Proof.
  intros Hvalid. cbv zeta.
  destruct (validated_facts req now Hvalid)
    as (f & t & ms & Eup & Etitle & Et & Etrim & Elen & Edate & Eparse & Efuture).
  exists f, t. split; [exact Eup|]. split; [exact Etitle|].
  unfold firstNonEmpty, profileTenant. cbn [find].
  pattern (serve (createMemory rt svc) req s now). apply serve_wp.
  unfold createMemory. rewrite Eup, Etitle.
  wp_run.
  all: finish.
  all: try solve [split; reflexivity].
  all: try (split; intros Hd; strings).
  all: try solve [split; [reflexivity | eexists; reflexivity]].
  all: try (lazymatch goal with
            | |- context [[ServiceCreate ?d _ _ _]] => exists d
            end;
            repeat (split; [reflexivity|]);
            intros res s1 Hcall; rewrite Ecall in Hcall; inversion Hcall; subst;
            first [reflexivity | repeat split; auto 12]).
  all: rewrite falsy_textOrFalsy in Hd by assumption; discriminate.
Qed.

(** A request that fails validation makes createMemory call nothing outside
    the process. *)
Lemma create_without_validation req s now :
  passesValidation rt req now = false ->
  outsideCalls (eventsOf (serve (createMemory rt svc) req s now)) = [].
Proof.
  unfold passesValidation, firstViolation, checkOrder. cbn [find violates].
  intros H.
  pattern (serve (createMemory rt svc) req s now). apply serve_wp.
  unfold createMemory.
  destruct (uploadMiddleware rt (upload req)) as [err file] eqn:Eup.
  cbn [fst snd] in *.
  wp_run.
  all: finish.
  all: reflexivity.
Qed.

(** ** createMemory: the tenant id *)

Lemma profile_query_made (a b : bool) (u : jsval) :
  existsb isProfileQuery (if a || b then [] else [ProfileQuery u]) = negb a && negb b.
Proof. destruct a, b; reflexivity. Qed.

Lemma profile_query_only (a b : bool) (u : jsval) (e : Event) :
  In e (if a || b then [] else [ProfileQuery u]) -> isServiceCreate e = false.
Proof.
  destruct (a || b); cbn; [tauto|]. intros [<-|[]]. reflexivity.
Qed.

(** C1. createMemory resolves the tenant id from the session user's
    college id, then the request's tenant, then the owner's profile row,
    taking the first non-empty one; the profile is queried only when the
    first two are empty; and when all three are empty the answer is the 400
    validation error and the service's create operation is not invoked. *)
Theorem create_tenant_resolution req s now :
  let r := serve (createMemory rt svc) req s now in
  let session := college_id (user req) in
  let context := tenant req in
  let lookup := profileTenant (profiles_select_college_id svc (user_id (user req)) s) in
  (existsb isProfileQuery (eventsOf r) = true ->
     truthy session = false /\ truthy context = false) /\
  (forall d f u c, In (ServiceCreate d f u c) (eventsOf r) ->
     firstNonEmpty [session; context; lookup] = Some c) /\
  (passesValidation rt req now = true ->
     existsb isProfileQuery (eventsOf r) = negb (truthy session) && negb (truthy context) /\
     (firstNonEmpty [session; context; lookup] = None ->
        responseOf r = Some (errorResponse (VStr collegeIdNotFound) 400) /\
        existsb isServiceCreate (eventsOf r) = false) /\
     (forall c, firstNonEmpty [session; context; lookup] = Some c ->
        textOrFalsy (body_description req) = true ->
        exists d f, In (ServiceCreate d f (user_id (user req)) c) (eventsOf r))).
Proof.
  cbv zeta.
  set (r := serve (createMemory rt svc) req s now).
  set (a := truthy (college_id (user req))).
  set (b := truthy (tenant req)).
  rewrite <- (existsb_outsideCalls isProfileQuery (eventsOf r) profileQuery_outside).
  rewrite <- (existsb_outsideCalls isServiceCreate (eventsOf r) serviceCreate_outside).
  assert (Hin : forall d f u c,
             In (ServiceCreate d f u c) (eventsOf r)
             <-> In (ServiceCreate d f u c) (outsideCalls (eventsOf r))).
  { intros. symmetry. apply In_outsideCalls. reflexivity. }
  assert (Hboth : negb a && negb b = true -> a = false /\ b = false).
  { destruct a, b; cbn; intros; try discriminate; auto. }
  destruct (passesValidation rt req now) eqn:Hvalid.
  - (* the request passes validation *)
    destruct (create_after_validation req s now Hvalid) as (f & t & _ & _ & H).
    fold r a b in H.
    destruct (firstNonEmpty _) as [c|] eqn:Efirst.
    + destruct H as [Hbad Hgood].
      destruct (textOrFalsy (body_description req)) eqn:Edesc.
      * (* the service is called *)
        destruct (Hgood eq_refl) as (d & _ & _ & _ & Hcalls & _).
        rewrite Hcalls, existsb_app, profile_query_made. cbn [existsb isProfileQuery orb].
        rewrite orb_false_r.
        split; [exact Hboth|]. split.
        { intros d' f' u' c' Hev. apply Hin in Hev. rewrite Hcalls in Hev.
          apply in_app_or in Hev. destruct Hev as [Hev|[Hev|[]]].
          - apply profile_query_only in Hev. discriminate.
          - inversion Hev; subst. reflexivity. }
        intros _. split; [reflexivity|]. split; [discriminate|].
        intros c' Hc' _. inversion Hc'; subst c'. exists d, f.
        apply Hin. rewrite Hcalls. apply in_or_app. right. left. reflexivity.
      * (* the description has no trim *)
        destruct (Hbad eq_refl) as (Hcalls & _).
        rewrite Hcalls, profile_query_made.
        split; [exact Hboth|]. split.
        { intros d' f' u' c' Hev. apply Hin in Hev. rewrite Hcalls in Hev.
          apply profile_query_only in Hev. discriminate. }
        intros _. split; [reflexivity|]. split; discriminate.
    + (* no tenant id anywhere *)
      destruct H as [Hresp Hcalls]. rewrite Hcalls, profile_query_made.
      split; [exact Hboth|]. split.
      { intros d' f' u' c' Hev. apply Hin in Hev. rewrite Hcalls in Hev.
        apply profile_query_only in Hev. discriminate. }
      intros _. split; [reflexivity|]. split; [|discriminate].
      intros _. split; [exact Hresp|].
      destruct (a || b); reflexivity.
  - (* the request is turned down before the tenant is looked at *)
    pose proof (create_without_validation req s now Hvalid) as Hnone. fold r in Hnone.
    rewrite Hnone. split; [discriminate|]. split; [|discriminate].
    intros d f u c Hev. apply Hin in Hev. rewrite Hnone in Hev. destruct Hev.
Qed.

(** The create call createMemory makes, when it makes one. *)
Lemma create_call_facts req s now d f u c :
  In (ServiceCreate d f u c) (eventsOf (serve (createMemory rt svc) req s now)) ->
  passesValidation rt req now = true /\
  textOrFalsy (body_description req) = true /\
  exists t,
    body_title req = VStr t /\
    data_title d = trim t /\
    data_date d = body_date req /\
    data_description d
      = (if truthy (body_description req)
         then match body_description req with
              | VStr x => VStr (trim x)
              | other => other
              end
         else VNull) /\
    u = user_id (user req) /\
    forall res s', svc_createMemory svc d f u c s = (res, s') ->
      match res with
      | inr m =>
          responseOf (serve (createMemory rt svc) req s now)
            = Some (successResponse m (lit "Memory created successfully") (Some 201%Z))
      | inl e =>
          responseOf (serve (createMemory rt svc) req s now)
            = Some (errorResponse
                      (js_or (exn_message e) (VStr (lit "Failed to create memory")))
                      500) /\
          In (LogError "[MemoryWall] Create memory error:" e)
             (eventsOf (serve (createMemory rt svc) req s now)) /\
          In (LogError "[MemoryWall] Error stack:" e)
             (eventsOf (serve (createMemory rt svc) req s now))
      end.
Proof.
  intros Hev. apply (In_outsideCalls (ServiceCreate d f u c) _ eq_refl) in Hev.
  destruct (passesValidation rt req now) eqn:Hvalid.
  2:{ rewrite (create_without_validation req s now Hvalid) in Hev. destruct Hev. }
  destruct (create_after_validation req s now Hvalid) as (f0 & t & _ & Etitle & H).
  assert (Hquery : forall a b x, ~ In (ServiceCreate d f u c)
                                    (if a || b then [] else [ProfileQuery x])).
  { intros a b x. destruct (a || b); cbn; intuition discriminate. }
  destruct (firstNonEmpty _) as [c0|].
  2:{ destruct H as [_ Hcalls]. rewrite Hcalls in Hev. apply Hquery in Hev. destruct Hev. }
  destruct H as [Hbad Hgood].
  destruct (textOrFalsy (body_description req)) eqn:Edesc.
  2:{ destruct (Hbad eq_refl) as [Hcalls _]. rewrite Hcalls in Hev.
      apply Hquery in Hev. destruct Hev. }
  destruct (Hgood eq_refl) as (d0 & Ht & Hd & Hx & Hcalls & Hres).
  rewrite Hcalls in Hev. apply in_app_or in Hev. destruct Hev as [Hev|[Hev|[]]].
  { apply Hquery in Hev. destruct Hev. }
  inversion Hev; subst.
  split; [reflexivity|]. split; [reflexivity|].
  exists t. repeat split; auto.
Qed.

(** ** updateMemory *)

(** The update call updateMemory makes, when it makes one. *)
Lemma update_call_facts req s now i u c upd :
  In (ServiceUpdate i u c upd) (eventsOf (serve (updateMemory rt svc) req s now)) ->
  i = params_id req /\ u = user_id (user req) /\
  c = js_or (college_id (user req)) (tenant req) /\
  getProp "title" upd = body_title req /\
  getProp "date" upd = body_date req /\
  getProp "description" upd = body_description req /\
  (isDefined (body_title req) = true ->
     exists t, body_title req = VStr t /\ eqb (trim t) [] = false /\
               (200 <? List.length (trim t))%nat = false) /\
  (isDefined (body_date req) = true ->
     exists ms, date_parse rt (body_date req) = Some ms /\
                (end_of_local_day rt now <? ms)%Z = false).
Proof.
  pattern (serve (updateMemory rt svc) req s now). apply serve_wp.
  unfold updateMemory.
  wp_run.
  all: finish.
  all: intros Hev;
       repeat match goal with
              | H : _ \/ _ |- _ => destruct H
              | H : False |- _ => destruct H
              | H : @eq Event _ _ |- _ => first [discriminate H | inversion H; subst; clear H]
              end.
  all: repeat match goal with
              | H : isDefined _ = false |- _ => apply isDefined_false in H; rewrite H
              end.
  all: repeat split; intros; try reflexivity; try congruence; eauto.
Qed.

(** C9. An update whose body has none of title, date and description is
    answered 400 "No valid fields to update", and nothing outside the
    handler is called: not the service's update operation, nor any other. *)
Theorem update_without_fields_rejected req s now :
  body_title req = VUndefined ->
  body_date req = VUndefined ->
  body_description req = VUndefined ->
  let r := serve (updateMemory rt svc) req s now in
  responseOf r = Some (errorResponse (VStr (lit "No valid fields to update")) 400) /\
  eventsOf r = [].
Proof.
  intros Ht Hd Hx. cbv zeta.
  pattern (serve (updateMemory rt svc) req s now). apply serve_wp.
  unfold updateMemory. rewrite Ht, Hd, Hx. cbn [isDefined].
  wp_run. finish. split; reflexivity.
Qed.


(** ** What reaches the persistence service *)

(** C4 (amended). createMemory hands the service the trimmed title, of 1 to
    200 characters, and a description that is the trimmed text when one is
    provided and null otherwise.  updateMemory applies the same blank and
    length checks to the trimmed title: a title it hands to the service has
    a trimmed form of 1 to 200 characters. *)
Theorem service_receives_checked_title req s now :
  (forall d f u c,
     In (ServiceCreate d f u c) (eventsOf (serve (createMemory rt svc) req s now)) ->
     exists t,
       body_title req = VStr t /\
       data_title d = trim t /\
       (1 <= List.length (data_title d) <= 200)%nat /\
       ((truthy (body_description req) = false /\ data_description d = VNull) \/
        (exists x, body_description req = VStr x /\ data_description d = VStr (trim x)))) /\
  (forall i u c upd,
     In (ServiceUpdate i u c upd) (eventsOf (serve (updateMemory rt svc) req s now)) ->
     isDefined (getProp "title" upd) = true ->
     exists t,
       getProp "title" upd = VStr t /\
       (1 <= List.length (trim t) <= 200)%nat).
Proof.
  split.
  - intros d f u c Hev.
    destruct (create_call_facts req s now d f u c Hev)
      as (Hvalid & Hdesc & t & Etitle & Ht & _ & Hx & _).
    destruct (validated_facts req now Hvalid)
      as (_ & t' & _ & _ & Etitle' & _ & Etrim & Elen & _).
    assert (t' = t) by congruence. subst t'.
    exists t. split; [exact Etitle|]. split; [exact Ht|].
    split; [rewrite Ht; apply length_trimmed; assumption|].
    rewrite Hx. destruct (body_description req) as [| |b|n|x]; cbn in *.
    + left. split; reflexivity.
    + left. split; reflexivity.
    + destruct b; [discriminate|]. left. split; reflexivity.
    + destruct (n =? 0)%Z; [|discriminate]. left. split; reflexivity.
    + destruct (eqb x []); cbn.
      * left. split; reflexivity.
      * right. exists x. split; reflexivity.
  - intros i u c upd Hev Hdef.
    destruct (update_call_facts req s now i u c upd Hev)
      as (_ & _ & _ & Ht & _ & _ & Htitle & _).
    rewrite Ht in *. destruct (Htitle Hdef) as (t & Etitle & Etrim & Elen).
    exists t. split; [exact Etitle|]. apply length_trimmed; assumption.
Qed.

(** C5 (amended). When the service's create operation fails, createMemory
    answers 500 with the error's own message when it has one and with
    "Failed to create memory" otherwise, and logs the error and its stack. *)
Theorem create_failure_response req s now d f u c e s' :
  In (ServiceCreate d f u c) (eventsOf (serve (createMemory rt svc) req s now)) ->
  svc_createMemory svc d f u c s = (inl e, s') ->
  responseOf (serve (createMemory rt svc) req s now)
    = Some (errorResponse
              (if truthy (exn_message e) then exn_message e
               else VStr (lit "Failed to create memory"))
              500) /\
  In (LogError "[MemoryWall] Create memory error:" e)
     (eventsOf (serve (createMemory rt svc) req s now)) /\
  In (LogError "[MemoryWall] Error stack:" e)
     (eventsOf (serve (createMemory rt svc) req s now)).
Proof.
  intros Hev Hcall.
  destruct (create_call_facts req s now d f u c Hev)
    as (_ & _ & t & _ & _ & _ & _ & _ & Hres).
  exact (Hres _ _ Hcall).
Qed.

(** ** Upload limits *)

(** C6. The size limit is 10,485,760 bytes unless MAX_IMAGE_SIZE parses to
    a non-zero number, which then is the limit; an accepted file type whose
    size exceeds the limit is answered 400; the message of that answer is
    the fixed text "Photo size exceeds the limit (10MB)", whatever the
    configured limit is. *)
Theorem oversize_upload_answer req s now f :
  upload req = PhotoUpload f ->
  In (fileExtension rt f) allowedImageTypes ->
  (fileSizeLimit rt < size f)%Z ->
  (env_MAX_IMAGE_SIZE rt = None -> fileSizeLimit rt = 10485760%Z) /\
  (forall text n, env_MAX_IMAGE_SIZE rt = Some text -> parseInt text = Some n ->
                  n <> 0%Z -> fileSizeLimit rt = n) /\
  responseOf (serve (createMemory rt svc) req s now)
    = Some (errorResponse (VStr (lit "Photo size exceeds the limit (10MB)")) 400) /\
  outsideCalls (eventsOf (serve (createMemory rt svc) req s now)) = [].
Proof.
  intros Hup Hext Hsize.
  split; [|split].
  - unfold fileSizeLimit. intros ->. reflexivity.
  - unfold fileSizeLimit. intros text n -> -> Hn.
    destruct (Z.eqb_spec n 0); [contradiction | reflexivity].
  - apply arrayIncludes_In in Hext. apply Z.ltb_lt in Hsize.
    pose proof (eqb_refl (lit "LIMIT_FILE_SIZE")) as Hcode.
    pattern (serve (createMemory rt svc) req s now). apply serve_wp.
    unfold createMemory, uploadMiddleware, fileFilter. rewrite Hup, Hext, Hsize.
    wp_run. finish. split; reflexivity.
Qed.

(** C8. A file whose extension is outside jpg, jpeg, png, gif, webp, heic,
    heif is turned down by the file filter: createMemory answers 400 with the
    message that names the allowed list, and calls neither the persistence
    service nor the profile table. *)
Theorem disallowed_extension_rejected req s now f :
  upload req = PhotoUpload f ->
  ~ In (fileExtension rt f)
       [lit "jpg"; lit "jpeg"; lit "png"; lit "gif"; lit "webp"; lit "heic"; lit "heif"] ->
  let r := serve (createMemory rt svc) req s now in
  responseOf r
    = Some (errorResponse
              (VStr (lit "File type not allowed. Allowed image types: jpg, jpeg, png, gif, webp, heic, heif"))
              400) /\
  (forall e, In e (eventsOf r) -> serviceTenant e = None /\ isProfileQuery e = false).
Proof.
  intros Hup Hext. cbv zeta.
  assert (Hfilter : arrayIncludes allowedImageTypes (fileExtension rt f) = false).
  { destruct (arrayIncludes allowedImageTypes (fileExtension rt f)) eqn:E; [|reflexivity].
    apply arrayIncludes_In in E. contradiction. }
  pattern (serve (createMemory rt svc) req s now). apply serve_wp.
  unfold createMemory, uploadMiddleware, fileFilter. rewrite Hup, Hfilter.
  wp_run. finish. split.
  - reflexivity.
  - intros e [H|[H|[H|[]]]]; subst e; split; reflexivity.
Qed.

(** ** Dates *)

Lemma some_violation req now v :
  violates rt req now v = true -> exists v', firstViolation rt req now = Some v'.
Proof.
  intros Hv. unfold firstViolation.
  destruct (find (violates rt req now) checkOrder) as [v'|] eqn:E.
  - exists v'. reflexivity.
  - pose proof (find_none _ _ E v) as Hnone.
    rewrite Hnone in Hv; [discriminate|].
    destruct v; cbn; tauto.
Qed.

Lemma no_violation req now :
  (forall v, violates rt req now v = false) -> firstViolation rt req now = None.
Proof.
  intros Hall. unfold firstViolation, checkOrder. cbn [find].
  rewrite !Hall. reflexivity.
Qed.

Lemma only_violation req now v v' :
  firstViolation rt req now = Some v' ->
  (forall w, w <> v -> violates rt req now w = false) ->
  v' = v.
Proof.
  intros Hfirst Hothers. apply find_some in Hfirst. destruct Hfirst as [_ Hv'].
  destruct v, v'; try reflexivity; rewrite Hothers in Hv'; discriminate.
Qed.

(** updateMemory turns down a date after the end of today. *)
Lemma update_rejects_future_date req s now t :
  isDefined (body_date req) = true ->
  date_parse rt (body_date req) = Some t ->
  (end_of_local_day rt now <? t)%Z = true ->
  existsb isServiceUpdate (eventsOf (serve (updateMemory rt svc) req s now)) = false /\
  (textOrUndefined (body_title req) = true ->
   exists m, responseOf (serve (updateMemory rt svc) req s now)
             = Some (errorResponse (VStr (lit m)) 400)).
Proof.
  intros Hdef Hparse Hfuture.
  pattern (serve (updateMemory rt svc) req s now). apply serve_wp.
  unfold updateMemory.
  wp_run.
  all: finish.
  all: split; [reflexivity|]; intros Htext; try discriminate.
  all: eexists; reflexivity.
Qed.

(** C7. A date after the end of the current day makes createMemory and
    updateMemory answer 400 without calling the service; a date up to the end
    of the current day, today's included, passes the date check, and
    createMemory then creates the memory and answers 201 when the rest of
    the request is in order. *)
Theorem future_date_rejected_today_accepted req s now t :
  date_parse rt (body_date req) = Some t ->
  let create := serve (createMemory rt svc) req s now in
  let update := serve (updateMemory rt svc) req s now in
  let uid := user_id (user req) in
  let lookup := profileTenant (profiles_select_college_id svc uid s) in
  ((end_of_local_day rt now < t)%Z ->
     existsb isServiceCreate (eventsOf create) = false /\
     (fst (uploadMiddleware rt (upload req)) = None ->
      textOrFalsy (body_title req) = true ->
      exists v,
        firstViolation rt req now = Some v /\
        responseOf create = Some (errorResponse (VStr (lit (violationMessage v))) 400) /\
        ((forall w, w <> DateInFuture -> violates rt req now w = false) ->
         v = DateInFuture)) /\
     (isDefined (body_date req) = true ->
      existsb isServiceUpdate (eventsOf update) = false /\
      (textOrUndefined (body_title req) = true ->
       exists m, responseOf update = Some (errorResponse (VStr (lit m)) 400)))) /\
  ((t <= end_of_local_day rt now)%Z ->
     violates rt req now DateInFuture = false /\
     (fst (uploadMiddleware rt (upload req)) = None ->
      textOrFalsy (body_title req) = true ->
      (forall w, w <> DateInFuture -> violates rt req now w = false) ->
      textOrFalsy (body_description req) = true ->
      forall c, firstNonEmpty [college_id (user req); tenant req; lookup] = Some c ->
      exists d f,
        In (ServiceCreate d f uid c) (eventsOf create) /\
        forall m s', svc_createMemory svc d f uid c s = (inr m, s') ->
          responseOf create
            = Some (successResponse m (lit "Memory created successfully") (Some 201%Z)))).
Proof.
  intros Hparse. cbv zeta. split.
  - intros Hfuture. apply Z.ltb_lt in Hfuture.
    assert (Hv : violates rt req now DateInFuture = true).
    { cbn. rewrite Hparse. exact Hfuture. }
    destruct (some_violation req now DateInFuture Hv) as [v Hfirst].
    destruct (create_rejects_first_violation req s now v Hfirst) as [Hno Hresp].
    split; [exact Hno|]. split.
    + intros Hup Htext. exists v. split; [exact Hfirst|]. split; [auto|].
      intros Hothers. exact (only_violation req now DateInFuture v Hfirst Hothers).
    + intros Hdef. exact (update_rejects_future_date req s now t Hdef Hparse Hfuture).
  - intros Htoday.
    assert (Hv : violates rt req now DateInFuture = false).
    { cbn. rewrite Hparse. apply Z.ltb_ge. exact Htoday. }
    split; [exact Hv|].
    intros Hup Htext Hothers Hdesc c Hc.
    assert (Hvalid : passesValidation rt req now = true).
    { unfold passesValidation. rewrite Hup, Htext.
      rewrite no_violation; [reflexivity|].
      intros w. destruct w; try (apply Hothers; discriminate). exact Hv. }
    destruct (create_after_validation req s now Hvalid) as (f & x & _ & _ & H).
    rewrite Hc in H. destruct H as [_ Hgood].
    destruct (Hgood Hdesc) as (d & _ & _ & _ & Hcalls & Hres).
    exists d, f. split.
    + apply (In_outsideCalls (ServiceCreate d f (user_id (user req)) c) _ eq_refl).
      rewrite Hcalls. apply in_or_app. right. left. reflexivity.
    + intros m s' Hcall. exact (Hres _ _ Hcall).
Qed.

(** ** The tenant id outside createMemory *)

(** Closes the goals about an explicit trace. *)
Ltac through :=
  unfold tenantPassedThrough; finish;
  repeat match goal with
         | |- _ /\ _ => split
         | |- _ <> _ => intro
         | |- forall _, _ => intro
         | H : _ \/ _ |- _ => destruct H
         | H : False |- _ => destruct H
         | H : @eq Event _ _ |- _ => subst
         | H : serviceTenant _ = Some _ |- _ =>
             cbn [serviceTenant] in H; first [discriminate H | inversion H; subst; clear H]
         | H : Some _ = Some _ |- _ => first [discriminate H | inversion H; subst; clear H]
         end;
  try reflexivity; try discriminate; auto.

(** C10. When the session's college id and the request's tenant are both
    empty, getAllMemories, getMemoryById, updateMemory, deleteMemory and
    getMemoryStats do not look the profile up and do not answer that the
    tenant id is missing: the empty tenant value of the request is what
    they hand to the persistence service. *)
Theorem tenant_passed_through_outside_create req s now :
  truthy (college_id (user req)) = false ->
  truthy (tenant req) = false ->
  let uid := user_id (user req) in
  let list := serve (getAllMemories svc) req s now in
  let get := serve (getMemoryById svc) req s now in
  let update := serve (updateMemory rt svc) req s now in
  let delete := serve (deleteMemory rt svc) req s now in
  let stats := serve (getMemoryStats svc) req s now in
  tenantPassedThrough req list /\
  tenantPassedThrough req get /\
  tenantPassedThrough req update /\
  tenantPassedThrough req delete /\
  tenantPassedThrough req stats /\
  (exists filters, In (ServiceList uid (tenant req) filters) (eventsOf list)) /\
  In (ServiceGet (params_id req) uid (tenant req)) (eventsOf get) /\
  In (ServiceDelete (params_id req) uid (tenant req)) (eventsOf delete) /\
  In (ServiceStats uid (tenant req)) (eventsOf stats) /\
  (existsb isServiceUpdate (eventsOf update) = true ->
   exists updates,
     In (ServiceUpdate (params_id req) uid (tenant req) updates) (eventsOf update)).
Proof.
  intros Hsession Hcontext. cbv zeta.
  repeat match goal with |- _ /\ _ => split end.
  - pattern (serve (getAllMemories svc) req s now). apply serve_wp.
    unfold getAllMemories, js_or. rewrite Hsession. wp_run; through.
  - pattern (serve (getMemoryById svc) req s now). apply serve_wp.
    unfold getMemoryById, js_or. rewrite Hsession. wp_run; through.
  - pattern (serve (updateMemory rt svc) req s now). apply serve_wp.
    unfold updateMemory, js_or. rewrite Hsession. wp_run; through.
  - pattern (serve (deleteMemory rt svc) req s now). apply serve_wp.
    unfold deleteMemory, js_or. rewrite Hsession. wp_run; through.
  - pattern (serve (getMemoryStats svc) req s now). apply serve_wp.
    unfold getMemoryStats, js_or. rewrite Hsession. wp_run; through.
  - pattern (serve (getAllMemories svc) req s now). apply serve_wp.
    unfold getAllMemories, js_or. rewrite Hsession. wp_run; finish; eexists; auto.
  - pattern (serve (getMemoryById svc) req s now). apply serve_wp.
    unfold getMemoryById, js_or. rewrite Hsession. wp_run; finish; auto.
  - pattern (serve (deleteMemory rt svc) req s now). apply serve_wp.
    unfold deleteMemory, js_or. rewrite Hsession. wp_run; finish; auto.
  - pattern (serve (getMemoryStats svc) req s now). apply serve_wp.
    unfold getMemoryStats, js_or. rewrite Hsession. wp_run; finish; auto.
  - pattern (serve (updateMemory rt svc) req s now). apply serve_wp.
    unfold updateMemory, js_or. rewrite Hsession. wp_run; finish; intros Hcalled; try discriminate;
      eexists; auto 10.
Qed.

End Properties.

(** ** The answer of a handler and the service's outcome *)

Section SimRules.

Variables Store Memory : Type.
Variable I : Store -> Store -> Prop.

Lemma keep_sim A (m1 m2 : M Store Memory A) : keep I m1 m2 -> sim I m1 m2.
Proof.
  intros H w1 w2 Hw HI. destruct (H w1 w2 Hw HI) as (Hc & Ha & _). auto.
Qed.

Lemma keep_ret A (a : A) : @keep Store Memory A I (ret a) (ret a).
Proof. intros w1 w2 Hw HI. cbn. auto. Qed.

Lemma keep_return A r : @keep Store Memory A I (return_ r) (return_ r).
Proof. intros w1 w2 Hw HI. cbn. auto. Qed.

Lemma keep_throw A e : @keep Store Memory A I (throw e) (throw e).
Proof. intros w1 w2 Hw HI. cbn. auto. Qed.

Lemma keep_emit e : @keep Store Memory unit I (emit e) (emit e).
Proof.
  intros w1 w2 [Hc Ht] HI. cbn. unfold agree. cbn. rewrite Hc, Ht. auto.
Qed.

Lemma keep_newDate : @keep Store Memory Z I newDate newDate.
Proof.
  intros w1 w2 [Hc Ht] HI. cbn. unfold agree. rewrite Hc. auto.
Qed.

Lemma keep_bind A B (m1 m2 : M Store Memory A) (k1 k2 : A -> M Store Memory B) :
  keep I m1 m2 -> (forall a, keep I (k1 a) (k2 a)) -> keep I (bind m1 k1) (bind m2 k2).
Proof.
  intros Hm Hk w1 w2 Hw HI. unfold bind.
  destruct (Hm w1 w2 Hw HI) as (Hc & Ha & HI').
  destruct (m1 w1) as [c1 w1'], (m2 w2) as [c2 w2']. cbn in *. subst c2.
  destruct c1; cbn; auto. apply Hk; assumption.
Qed.

Lemma sim_bind A B (m1 m2 : M Store Memory A) (k1 k2 : A -> M Store Memory B) :
  keep I m1 m2 -> (forall a, sim I (k1 a) (k2 a)) -> sim I (bind m1 k1) (bind m2 k2).
Proof.
  intros Hm Hk w1 w2 Hw HI. unfold bind.
  destruct (Hm w1 w2 Hw HI) as (Hc & Ha & HI').
  destruct (m1 w1) as [c1 w1'], (m2 w2) as [c2 w2']. cbn in *. subst c2.
  destruct c1; cbn; auto. apply Hk; assumption.
Qed.

(** After a statement that may move the stores apart, the rest must do
    without the store. *)
Lemma sim_bind_any A B (m1 m2 : M Store Memory A) (k1 k2 : A -> M Store Memory B) :
  sim I m1 m2 -> (forall a, sim (fun _ _ => True) (k1 a) (k2 a)) ->
  sim I (bind m1 k1) (bind m2 k2).
Proof.
  intros Hm Hk w1 w2 Hw HI. unfold bind.
  destruct (Hm w1 w2 Hw HI) as (Hc & Ha).
  destruct (m1 w1) as [c1 w1'], (m2 w2) as [c2 w2']. cbn in *. subst c2.
  destruct c1; cbn; auto. apply Hk; auto.
Qed.

Lemma sim_tryCatch A (b1 b2 : M Store Memory A) (h1 h2 : Exn -> M Store Memory A) :
  sim I b1 b2 -> (forall e, sim (fun _ _ => True) (h1 e) (h2 e)) ->
  sim I (tryCatch b1 h1) (tryCatch b2 h2).
Proof.
  intros Hb Hh w1 w2 Hw HI. unfold tryCatch.
  destruct (Hb w1 w2 Hw HI) as (Hc & Ha).
  destruct (b1 w1) as [c1 w1'], (b2 w2) as [c2 w2']. cbn in *. subst c2.
  destruct c1; cbn; auto. apply Hh; auto.
Qed.

Lemma sim_await e (call1 call2 : Store -> (Exn + option Memory) * Store) :
  (forall s1 s2, I s1 s2 -> fst (call1 s1) = fst (call2 s2)) ->
  sim I (await e call1) (await e call2).
Proof.
  intros Hcall w1 w2 [Hc Ht] HI. unfold await.
  specialize (Hcall _ _ HI).
  destruct (call1 (store w1)) as [r1 s1'], (call2 (store w2)) as [r2 s2'].
  cbn in Hcall. subst r2. unfold agree.
  destruct r1; cbn; rewrite Hc, Ht; auto.
Qed.

End SimRules.

(** A statement that does not look at the store relates to itself. *)
Ltac keep_step :=
  lazymatch goal with
  | |- keep _ (bind _ _) (bind _ _) => apply keep_bind; [|intro]
  | |- keep _ (ret _) (ret _) => apply keep_ret
  | |- keep _ (return_ _) (return_ _) => apply keep_return
  | |- keep _ (throw _) (throw _) => apply keep_throw
  | |- keep _ (emit _) (emit _) => apply keep_emit
  | |- keep _ (log _) (log _) => unfold log
  | |- keep _ (logError _ _) (logError _ _) => unfold logError
  | |- keep _ (err400 _) (err400 _) => unfold err400
  | |- keep _ newDate newDate => apply keep_newDate
  | |- keep _ (when ?c _) (when ?c _) => unfold when; destruct c
  | |- keep _ (trimOf _ ?v) (trimOf _ ?v) => unfold trimOf; destruct v
  | |- keep _ (includesOf _ ?v _) (includesOf _ ?v _) => unfold includesOf; destruct v
  | |- keep _ (if ?c then _ else _) (if ?c then _ else _) => destruct c
  | |- keep _ (match ?x with _ => _ end) (match ?x with _ => _ end) => destruct x
  end.

Section Outcome.

Variables Store Memory : Type.
Variable rt : Runtime.
Variables svc svc' : Service Store Memory.

(** The catch block of updateMemory and deleteMemory does without the
    store. *)
Lemma notFoundOrError_keep (I : Store -> Store -> Prop) line fallback e :
  keep (Memory:=Memory) I (notFoundOrError rt line fallback e)
    (notFoundOrError rt line fallback e).
Proof.
  unfold notFoundOrError. repeat keep_step.
Qed.

(** updateMemory answers by what the service's update operation returns or
    throws on the request's target, not by the store behind it. *)
Lemma update_answer_by_outcome req s s' now :
  (forall updates,
     fst (svc_updateMemory svc (params_id req) (user_id (user req))
            (js_or (college_id (user req)) (tenant req)) updates s)
     = fst (svc_updateMemory svc' (params_id req) (user_id (user req))
              (js_or (college_id (user req)) (tenant req)) updates s')) ->
  responseOf (serve (updateMemory rt svc) req s now)
  = responseOf (serve (updateMemory rt svc') req s' now).
Proof.
  intros Hsame.
  set (I := fun s1 s2 : Store => s1 = s /\ s2 = s').
  assert (Hsim : sim I (updateMemory rt svc req) (updateMemory rt svc' req)).
  { unfold updateMemory.
    apply sim_tryCatch.
    - apply sim_bind; [repeat keep_step | intros updates].
      apply sim_bind; [repeat keep_step | intros updates'].
      apply sim_bind; [repeat keep_step | intros _].
      apply sim_bind_any.
      + apply sim_await. intros s1 s2 [-> ->]. apply Hsame.
      + intros memory. apply keep_sim. repeat keep_step.
    - intros e. apply keep_sim. apply notFoundOrError_keep. }
  unfold responseOf, serve.
  destruct (Hsim {| store := s; clock := now; trace := [] |}
                 {| store := s'; clock := now; trace := [] |}) as [Hc _].
  - split; reflexivity.
  - split; reflexivity.
  - rewrite Hc. reflexivity.
Qed.

End Outcome.

(** ** Not found, whatever the cause *)

Section SpecProperties.

Variable rt : Runtime.
Variable base : Service SpecService.Store SpecService.Memory.
Variable notFound : jstr.

(** The service's not-found error is one the handlers recognise. *)
Hypothesis notFound_recognised :
  includes notFound (lit "not found") || includes notFound (lit "permission") = true.

Lemma absent_no_target memoryId userId collegeId s :
  SpecService.targetAbsent memoryId s = true ->
  find (SpecService.isTarget memoryId userId collegeId) s = None.
Proof.
  unfold SpecService.targetAbsent. intros H.
  induction s as [|m s IH]; [reflexivity|].
  cbn in *. apply andb_true_iff in H. destruct H as [Hm Hs].
  apply negb_true_iff in Hm. unfold SpecService.isTarget at 1. rewrite Hm. cbn.
  apply IH. exact Hs.
Qed.

Lemma foreign_no_target memoryId userId collegeId s :
  SpecService.targetForeign memoryId userId collegeId s = true ->
  find (SpecService.isTarget memoryId userId collegeId) s = None.
Proof.
  unfold SpecService.targetForeign. intros H.
  apply andb_true_iff in H. destruct H as [_ H].
  induction s as [|m s IH]; [reflexivity|].
  cbn in *. apply andb_true_iff in H. destruct H as [Hm Hs].
  apply negb_true_iff in Hm. rewrite Hm. apply IH. exact Hs.
Qed.

(** Without a target, deleteMemory answers not-found with the service's
    message. *)
Lemma delete_without_target req s now :
  find (SpecService.isTarget (params_id req) (user_id (user req))
          (js_or (college_id (user req)) (tenant req))) s = None ->
  responseOf (serve (deleteMemory rt (SpecService.service notFound base)) req s now)
    = Some (notFoundResponse (VStr notFound)).
Proof.
  intros Hfind.
  pattern (serve (deleteMemory rt (SpecService.service notFound base)) req s now).
  apply serve_wp. unfold deleteMemory.
  apply wp_tryCatch, wp_bind, wp_await. intros r s' Ecall.
  cbn [store clock trace svc_deleteMemory SpecService.service] in Ecall.
  unfold SpecService.deleteMemory in Ecall. rewrite Hfind in Ecall.
  inversion Ecall; subst r s'. wp_simpl.
  destruct (includes notFound (lit "not found")) eqn:Efound;
    cbn [orb] in notFound_recognised.
  - wp_run. finish. reflexivity.
  - wp_run. finish. reflexivity.
Qed.

(** Without a target, an update that reaches the service is answered
    not-found with the service's message. *)
Lemma update_without_target req s now :
  find (SpecService.isTarget (params_id req) (user_id (user req))
          (js_or (college_id (user req)) (tenant req))) s = None ->
  existsb isServiceUpdate
    (eventsOf (serve (updateMemory rt (SpecService.service notFound base)) req s now))
    = true ->
  responseOf (serve (updateMemory rt (SpecService.service notFound base)) req s now)
    = Some (notFoundResponse (VStr notFound)).
Proof.
  intros Hfind.
  pattern (serve (updateMemory rt (SpecService.service notFound base)) req s now).
  apply serve_wp. unfold updateMemory.
  destruct (includes notFound (lit "not found")) eqn:Efound;
    cbn [orb] in notFound_recognised.
  all: wp_run.
  all: finish; intros Hcalled; try discriminate.
  all: cbn [svc_updateMemory SpecService.service] in Ecall;
       unfold SpecService.updateMemory, js_or in Ecall; unfold js_or in Hfind;
       rewrite Hfind in Ecall; inversion Ecall; subst; cbn [exn_message] in *.
  all: try congruence.
  all: match goal with
       | H : VStr _ = VStr _ |- _ => inversion H; subst
       end; congruence.
Qed.

(** C3. With update and delete as the specification gives them, a request
    on a memory that does not exist and a request on a memory of another
    owner or tenant get the same answer: deleteMemory answers 404 with the
    service's one not-found message; updateMemory answers the two alike,
    and with that same 404 whenever the request reaches the service. *)
Theorem not_found_indistinguishable req now missing foreign :
  SpecService.targetAbsent (params_id req) missing = true ->
  SpecService.targetForeign (params_id req) (user_id (user req))
    (js_or (college_id (user req)) (tenant req)) foreign = true ->
  let svc := SpecService.service notFound base in
  let answer : option (Response SpecService.Memory) :=
    Some (notFoundResponse (VStr notFound)) in
  responseOf (serve (deleteMemory rt svc) req missing now) = answer /\
  responseOf (serve (deleteMemory rt svc) req foreign now) = answer /\
  responseOf (serve (updateMemory rt svc) req missing now)
    = responseOf (serve (updateMemory rt svc) req foreign now) /\
  (existsb isServiceUpdate (eventsOf (serve (updateMemory rt svc) req missing now)) = true ->
   responseOf (serve (updateMemory rt svc) req missing now) = answer) /\
  (existsb isServiceUpdate (eventsOf (serve (updateMemory rt svc) req foreign now)) = true ->
   responseOf (serve (updateMemory rt svc) req foreign now) = answer) /\
  httpStatus (notFoundResponse (Memory:=SpecService.Memory) (VStr notFound)) = 404%Z.
Proof.
  intros Habsent Hforeign. cbv zeta.
  pose proof (absent_no_target _ (user_id (user req))
                (js_or (college_id (user req)) (tenant req)) _ Habsent) as Hnone1.
  pose proof (foreign_no_target _ _ _ _ Hforeign) as Hnone2.
  repeat split.
  - apply delete_without_target. exact Hnone1.
  - apply delete_without_target. exact Hnone2.
  - apply update_answer_by_outcome. intros updates.
    cbn [svc_updateMemory SpecService.service]. unfold SpecService.updateMemory.
    rewrite Hnone1, Hnone2. reflexivity.
  - apply update_without_target. exact Hnone1.
  - apply update_without_target. exact Hnone2.
Qed.

End SpecProperties.

(** * The theorems at sample requests *)

(** C1 at a request with no tenant id in the session or the request: the
    profile is queried and its college id is the one the service gets. *)
Lemma create_tenant_resolution_witness :
  let req := Sample.fieldTrip (Sample.student VUndefined) VNull in
  let svc := Sample.accepting (Sample.profileOf (VStr (lit "college-9"))) in
  let r := serve (createMemory Sample.runtime svc) req tt Sample.noon in
  existsb isProfileQuery (eventsOf r) = true /\
  exists d f,
    In (ServiceCreate d f (VStr (lit "student-7")) (VStr (lit "college-9"))) (eventsOf r).
Proof.
  cbv zeta.
  destruct (create_tenant_resolution unit unit Sample.runtime
              (Sample.accepting (Sample.profileOf (VStr (lit "college-9"))))
              (Sample.fieldTrip (Sample.student VUndefined) VNull) tt Sample.noon)
    as (_ & _ & H).
  assert (Hvalid : passesValidation Sample.runtime
                     (Sample.fieldTrip (Sample.student VUndefined) VNull) Sample.noon
                   = true) by (vm_compute; reflexivity).
  destruct (H Hvalid) as (Hquery & _ & Hcreate). split.
  - rewrite Hquery. reflexivity.
  - apply Hcreate; vm_compute; reflexivity.
Defined.

(** C2 at a request with a blank title and no date: the title check comes
    first. *)
Lemma create_validation_order_witness :
  let req := Sample.create (Sample.student (VStr (lit "college-1"))) VUndefined
               (VStr (lit "   ")) VUndefined VUndefined
               (PhotoUpload (Sample.photo "trip.png" 1024)) in
  let r := serve (createMemory Sample.runtime (Sample.accepting Sample.noProfile))
             req tt Sample.noon in
  responseOf r = Some (errorResponse (VStr (lit "Title is required")) 400) /\
  existsb isServiceCreate (eventsOf r) = false.
Proof.
  cbv zeta.
  destruct (create_validation_order unit unit Sample.runtime
              (Sample.accepting Sample.noProfile)
              (Sample.create (Sample.student (VStr (lit "college-1"))) VUndefined
                 (VStr (lit "   ")) VUndefined VUndefined
                 (PhotoUpload (Sample.photo "trip.png" 1024)))
              tt Sample.noon) as (_ & H).
  destruct (H TitleBlank) as (Hnone & Hanswer); [vm_compute; reflexivity|].
  split; [|exact Hnone].
  apply Hanswer; vm_compute; reflexivity.
Defined.

(** C3 at a store without the memory and a store where another student
    owns it. *)
Lemma not_found_indistinguishable_witness :
  let req := Sample.onMemory (Sample.student (VStr (lit "college-1"))) VUndefined
               (VStr (lit "m-1")) (VStr (lit "Renamed")) VUndefined VUndefined in
  let svc := SpecService.service (lit "Memory not found")
               (fixedService (inr None) Sample.noProfile) in
  let missing := [Sample.memory "m-2" "student-7" "college-1"] in
  let foreign := [Sample.memory "m-1" "student-9" "college-1"] in
  responseOf (serve (deleteMemory Sample.runtime svc) req missing Sample.noon)
    = responseOf (serve (deleteMemory Sample.runtime svc) req foreign Sample.noon) /\
  responseOf (serve (updateMemory Sample.runtime svc) req missing Sample.noon)
    = Some (notFoundResponse (VStr (lit "Memory not found"))) /\
  responseOf (serve (updateMemory Sample.runtime svc) req foreign Sample.noon)
    = Some (notFoundResponse (VStr (lit "Memory not found"))).
Proof.
  cbv zeta.
  destruct (not_found_indistinguishable Sample.runtime
              (fixedService (inr None) Sample.noProfile) (lit "Memory not found")
              ltac:(vm_compute; reflexivity)
              (Sample.onMemory (Sample.student (VStr (lit "college-1"))) VUndefined
                 (VStr (lit "m-1")) (VStr (lit "Renamed")) VUndefined VUndefined)
              Sample.noon
              [Sample.memory "m-2" "student-7" "college-1"]
              [Sample.memory "m-1" "student-9" "college-1"]
              ltac:(vm_compute; reflexivity) ltac:(vm_compute; reflexivity))
    as (Hd1 & Hd2 & _ & Hu1 & Hu2 & _).
  split; [congruence|]. split.
  - apply Hu1. vm_compute. reflexivity.
  - apply Hu2. vm_compute. reflexivity.
Defined.

(** C4 (amended) at the scenario of the specification. *)
Lemma service_receives_checked_title_witness :
  let req := Sample.fieldTrip (Sample.student (VStr (lit "college-1"))) VUndefined in
  let r := serve (createMemory Sample.runtime (Sample.accepting Sample.noProfile))
             req tt Sample.noon in
  let d := {| data_title := lit "Field Trip";
              data_date := Sample.today;
              data_description := VNull |} in
  In (ServiceCreate d (Sample.photo "trip.JPG" 2097152)
        (VStr (lit "student-7")) (VStr (lit "college-1"))) (eventsOf r) /\
  (1 <= List.length (data_title d) <= 200)%nat.
Proof.
  cbv zeta.
  assert (Hev : In (ServiceCreate
                      {| data_title := lit "Field Trip";
                         data_date := Sample.today;
                         data_description := VNull |}
                      (Sample.photo "trip.JPG" 2097152)
                      (VStr (lit "student-7")) (VStr (lit "college-1")))
                   (eventsOf
                      (serve (createMemory Sample.runtime
                                (Sample.accepting Sample.noProfile))
                         (Sample.fieldTrip (Sample.student (VStr (lit "college-1")))
                            VUndefined)
                         tt Sample.noon))).
  { vm_compute. auto 10. }
  split; [exact Hev|].
  destruct (service_receives_checked_title unit unit Sample.runtime
              (Sample.accepting Sample.noProfile)
              (Sample.fieldTrip (Sample.student (VStr (lit "college-1"))) VUndefined)
              tt Sample.noon) as (Hcreate & _).
  destruct (Hcreate _ _ _ _ Hev) as (t & _ & _ & Hlen & _). exact Hlen.
Defined.

(** C4, as stated, fails on update: the title and the description reach the
    service as they were sent, blanks included. *)
Lemma update_hands_over_untrimmed_text :
  let req := Sample.onMemory (Sample.student (VStr (lit "college-1"))) VUndefined
               (VStr (lit "m-1")) (VStr (lit "  Field Trip ")) VUndefined
               (VStr (lit " a day out ")) in
  eventsOf (serve (updateMemory Sample.runtime (Sample.accepting Sample.noProfile))
              req tt Sample.noon)
    = [ServiceUpdate (VStr (lit "m-1")) (VStr (lit "student-7")) (VStr (lit "college-1"))
         [("title"%string, VStr (lit "  Field Trip "));
          ("description"%string, VStr (lit " a day out "))]] /\
  trim (lit "  Field Trip ") = lit "Field Trip" /\
  lit "  Field Trip " <> lit "Field Trip" /\
  trim (lit " a day out ") = lit "a day out" /\
  lit " a day out " <> lit "a day out".
Proof.
  cbv zeta. repeat split; try (vm_compute; reflexivity); vm_compute; discriminate.
Qed.

(** C5 (amended) at a service that fails with a database message. *)
Lemma create_failure_response_witness :
  let req := Sample.fieldTrip (Sample.student (VStr (lit "college-1"))) VUndefined in
  let svc := Sample.failing "duplicate key value violates unique constraint" in
  responseOf (serve (createMemory Sample.runtime svc) req tt Sample.noon)
    = Some (errorResponse
              (VStr (lit "duplicate key value violates unique constraint")) 500).
Proof.
  cbv zeta.
  refine (proj1 (create_failure_response unit unit Sample.runtime
                   (Sample.failing "duplicate key value violates unique constraint")
                   (Sample.fieldTrip (Sample.student (VStr (lit "college-1"))) VUndefined)
                   tt Sample.noon
                   {| data_title := lit "Field Trip";
                      data_date := Sample.today;
                      data_description := VNull |}
                   (Sample.photo "trip.JPG" 2097152)
                   (VStr (lit "student-7")) (VStr (lit "college-1"))
                   (JsError (VStr (lit "duplicate key value violates unique constraint")))
                   tt _ _)).
  - vm_compute. auto 10.
  - reflexivity.
Defined.

(** C5, as stated, fails: the message of the service's error is what the
    client is sent, not a generic one. *)
Lemma create_failure_message_reaches_client :
  let req := Sample.fieldTrip (Sample.student (VStr (lit "college-1"))) VUndefined in
  let svc := Sample.failing "relation memories violates row-level security policy" in
  responseOf (serve (createMemory Sample.runtime svc) req tt Sample.noon)
    = Some (errorResponse
              (VStr (lit "relation memories violates row-level security policy")) 500) /\
  lit "relation memories violates row-level security policy"
    <> lit "Failed to create memory".
Proof.
  cbv zeta. repeat split; try (vm_compute; reflexivity). vm_compute. discriminate.
Qed.

(** C6 with MAX_IMAGE_SIZE=5242880 and a photo of 6,000,000 bytes: the
    limit is 5 MiB and the message says 10MB. *)
Lemma oversize_upload_answer_witness :
  let req := Sample.create (Sample.student (VStr (lit "college-1"))) VUndefined
               (VStr (lit "Field Trip")) Sample.today VUndefined
               (PhotoUpload (Sample.photo "trip.jpg" 6000000)) in
  fileSizeLimit Sample.runtime5MiB = 5242880%Z /\
  responseOf (serve (createMemory Sample.runtime5MiB (Sample.accepting Sample.noProfile))
                req tt Sample.noon)
    = Some (errorResponse (VStr (lit "Photo size exceeds the limit (10MB)")) 400).
Proof.
  cbv zeta. split; [vm_compute; reflexivity|].
  refine (proj1 (proj2 (proj2
            (oversize_upload_answer unit unit Sample.runtime5MiB
               (Sample.accepting Sample.noProfile)
               (Sample.create (Sample.student (VStr (lit "college-1"))) VUndefined
                  (VStr (lit "Field Trip")) Sample.today VUndefined
                  (PhotoUpload (Sample.photo "trip.jpg" 6000000)))
               tt Sample.noon (Sample.photo "trip.jpg" 6000000) eq_refl _ _)))).
  - vm_compute. auto 10.
  - vm_compute. reflexivity.
Defined.

(** C7 at tomorrow's and at today's date. *)
Lemma future_date_rejected_today_accepted_witness :
  let u := Sample.student (VStr (lit "college-1")) in
  let svc := Sample.accepting Sample.noProfile in
  let late := Sample.create u VUndefined (VStr (lit "Field Trip")) Sample.tomorrow
                VUndefined (PhotoUpload (Sample.photo "trip.jpg" 2097152)) in
  responseOf (serve (createMemory Sample.runtime svc) late tt Sample.noon)
    = Some (errorResponse (VStr (lit "Memory date cannot be in the future")) 400) /\
  responseOf (serve (createMemory Sample.runtime svc) (Sample.fieldTrip u VUndefined)
                tt Sample.noon)
    = Some (successResponse (Some tt) (lit "Memory created successfully") (Some 201%Z)).
Proof.
  cbv zeta. split.
  - destruct (future_date_rejected_today_accepted unit unit Sample.runtime
                (Sample.accepting Sample.noProfile)
                (Sample.create (Sample.student (VStr (lit "college-1"))) VUndefined
                   (VStr (lit "Field Trip")) Sample.tomorrow VUndefined
                   (PhotoUpload (Sample.photo "trip.jpg" 2097152)))
                tt Sample.noon 1709337600000%Z eq_refl) as (Hlate & _).
    destruct Hlate as (_ & Hcreate & _); [vm_compute; reflexivity|].
    destruct Hcreate as (v & _ & Hanswer & Honly); [reflexivity | reflexivity |].
    rewrite Hanswer, Honly; [reflexivity|].
    intros w Hw. destruct w; try reflexivity. contradiction.
  - destruct (future_date_rejected_today_accepted unit unit Sample.runtime
                (Sample.accepting Sample.noProfile)
                (Sample.fieldTrip (Sample.student (VStr (lit "college-1"))) VUndefined)
                tt Sample.noon 1709251200000%Z eq_refl) as (_ & Htoday).
    destruct Htoday as (_ & Hcreate); [vm_compute; discriminate|].
    assert (Hothers : forall w, w <> DateInFuture ->
              violates Sample.runtime
                (Sample.fieldTrip (Sample.student (VStr (lit "college-1"))) VUndefined)
                Sample.noon w = false).
    { intros w Hw. destruct w; reflexivity. }
    destruct (Hcreate eq_refl eq_refl Hothers eq_refl (VStr (lit "college-1")) eq_refl)
      as (d & f & _ & Hanswer).
    apply (Hanswer (Some tt) tt). reflexivity.
Defined.

(** C8 at a PDF. *)
Lemma disallowed_extension_rejected_witness :
  let req := Sample.create (Sample.student (VStr (lit "college-1"))) VUndefined
               (VStr (lit "Field Trip")) Sample.today VUndefined
               (PhotoUpload (Sample.photo "notes.PDF" 2048)) in
  fileExtension Sample.runtime (Sample.photo "notes.PDF" 2048) = lit "pdf" /\
  responseOf (serve (createMemory Sample.runtime (Sample.accepting Sample.noProfile))
                req tt Sample.noon)
    = Some (errorResponse
              (VStr (lit "File type not allowed. Allowed image types: jpg, jpeg, png, gif, webp, heic, heif"))
              400).
Proof.
  cbv zeta. split; [vm_compute; reflexivity|].
  refine (proj1 (disallowed_extension_rejected unit unit Sample.runtime
                   (Sample.accepting Sample.noProfile)
                   (Sample.create (Sample.student (VStr (lit "college-1"))) VUndefined
                      (VStr (lit "Field Trip")) Sample.today VUndefined
                      (PhotoUpload (Sample.photo "notes.PDF" 2048)))
                   tt Sample.noon (Sample.photo "notes.PDF" 2048) eq_refl _)).
  vm_compute. intuition discriminate.
Defined.

(** C9 at an empty body. *)
Lemma update_without_fields_rejected_witness :
  let req := Sample.onMemory (Sample.student (VStr (lit "college-1"))) VUndefined
               (VStr (lit "m-1")) VUndefined VUndefined VUndefined in
  let r := serve (updateMemory Sample.runtime (Sample.accepting Sample.noProfile))
             req tt Sample.noon in
  responseOf r = Some (errorResponse (VStr (lit "No valid fields to update")) 400) /\
  eventsOf r = [].
Proof.
  cbv zeta.
  exact (update_without_fields_rejected unit unit Sample.runtime
           (Sample.accepting Sample.noProfile)
           (Sample.onMemory (Sample.student (VStr (lit "college-1"))) VUndefined
              (VStr (lit "m-1")) VUndefined VUndefined VUndefined)
           tt Sample.noon eq_refl eq_refl eq_refl).
Defined.

(** C10 at a student whose session and request carry no tenant id, though
    the profile has one. *)
Lemma tenant_passed_through_outside_create_witness :
  let req := Sample.onMemory (Sample.student VUndefined) VNull
               (VStr (lit "m-1")) (VStr (lit "Renamed")) VUndefined VUndefined in
  let svc := Sample.accepting (Sample.profileOf (VStr (lit "college-9"))) in
  In (ServiceDelete (VStr (lit "m-1")) (VStr (lit "student-7")) VNull)
     (eventsOf (serve (deleteMemory Sample.runtime svc) req tt Sample.noon)) /\
  existsb isProfileQuery
    (eventsOf (serve (updateMemory Sample.runtime svc) req tt Sample.noon)) = false /\
  exists updates,
    In (ServiceUpdate (VStr (lit "m-1")) (VStr (lit "student-7")) VNull updates)
       (eventsOf (serve (updateMemory Sample.runtime svc) req tt Sample.noon)).
Proof.
  cbv zeta.
  destruct (tenant_passed_through_outside_create unit unit Sample.runtime
              (Sample.accepting (Sample.profileOf (VStr (lit "college-9"))))
              (Sample.onMemory (Sample.student VUndefined) VNull
                 (VStr (lit "m-1")) (VStr (lit "Renamed")) VUndefined VUndefined)
              tt Sample.noon eq_refl eq_refl)
    as (_ & _ & (Hquery & _) & _ & _ & _ & _ & Hdelete & _ & Hupdate).
  split; [exact Hdelete|]. split; [exact Hquery|].
  apply Hupdate. vm_compute. reflexivity.
Defined.

(** * Further properties *)

(** ** Values *)

Lemma jsval_eqb_eq (a b : jsval) : jsval_eqb a b = true <-> a = b.
Proof.
  destruct a, b; cbn; split; intros H; try discriminate; try reflexivity.
  - apply Bool.eqb_prop in H. congruence.
  - inversion H. apply Bool.eqb_reflx.
  - apply Z.eqb_eq in H. congruence.
  - inversion H. apply Z.eqb_refl.
  - apply eqb_eq in H. congruence.
  - inversion H. apply eqb_refl.
Qed.

(** Closes what is left at the end of a path. *)
Ltac settle :=
  repeat match goal with
         | |- _ /\ _ => split
         | |- _ <-> _ => split
         | |- forall _, _ => intro
         | |- _ -> _ => intro
         | H : _ \/ _ |- _ => destruct H
         | H : exists _, _ |- _ => destruct H
         | H : _ /\ _ |- _ => destruct H
         | H : @eq (sum _ _) _ _ |- _ => first [discriminate H | inversion H; subst; clear H]
         | H : @eq (option _) _ _ |- _ => first [discriminate H | inversion H; subst; clear H]
         | H : @eq Event _ _ |- _ => first [discriminate H | inversion H; subst; clear H]
         end;
  try discriminate; try congruence; try contradiction; auto.

Section FurtherProperties.

Variables Store Memory : Type.
Variable rt : Runtime.
Variable svc : Service Store Memory.

(** X1. getMemoryById answers 404 "Memory not found" exactly when the
    service resolves with null or throws an error whose message is exactly
    that text; the two cases get the same answer.  A record is answered 200,
    any other error 500 with its message or "Failed to fetch memory"; the
    store is left as the service left it. *)
Theorem getMemoryById_answers req s now :
  let collegeId := js_or (college_id (user req)) (tenant req) in
  let call := svc_getMemoryById svc (params_id req) (user_id (user req)) collegeId s in
  let r := serve (getMemoryById svc) req s now in
  let missing : Response Memory := notFoundResponse (VStr (lit "Memory not found")) in
  (responseOf r = Some missing <->
     fst call = inr None \/
     exists e, fst call = inl e /\ exn_message e = VStr (lit "Memory not found")) /\
  (forall m, fst call = inr (Some m) ->
     responseOf r
       = Some (successResponse (Some m) (lit "Memory retrieved successfully") None)) /\
  (forall e, fst call = inl e -> exn_message e <> VStr (lit "Memory not found") ->
     responseOf r
       = Some (errorResponse
                 (js_or (exn_message e) (VStr (lit "Failed to fetch memory"))) 500)) /\
  store (snd r) = snd call /\
  outsideCalls (eventsOf r) = [ServiceGet (params_id req) (user_id (user req)) collegeId].
Proof.
  cbv zeta.
  pattern (serve (getMemoryById svc) req s now). apply serve_wp.
  unfold getMemoryById.
  apply wp_tryCatch, wp_bind, wp_await. intros outcome s' Ecall.
  cbn [store clock trace] in Ecall. rewrite Ecall. cbn [fst snd].
  destruct outcome as [e|[m|]]; wp_simpl.
  - (* the service throws *)
    destruct (jsval_eqb (exn_message e) (VStr (lit "Memory not found"))) eqn:Emsg.
    + apply jsval_eqb_eq in Emsg. wp_run. finish. rewrite Emsg. settle.
      right. exists e. auto.
    + assert (Hne : exn_message e <> VStr (lit "Memory not found")).
      { intros H. apply jsval_eqb_eq in H. congruence. }
      wp_run. finish. settle.
  - wp_run. finish. settle.
  - wp_run. finish. settle.
Qed.

(** X2. getAllMemories hands the service, in one call, exactly the query
    parameters that are non-empty, in the order search, startDate, endDate;
    getMemoryStats makes its one call likewise.  Both answer 200 with what
    the service returns and 500 with the error's message or a fallback
    otherwise, whatever the message says: never 404. *)
Theorem list_and_stats_answers req s now :
  let uid := user_id (user req) in
  let collegeId := js_or (college_id (user req)) (tenant req) in
  let listing := svc_getStudentMemories svc uid collegeId (queryFilters req) s in
  let counting := svc_getMemoryStats svc uid collegeId s in
  let listed := serve (getAllMemories svc) req s now in
  let stats := serve (getMemoryStats svc) req s now in
  (outsideCalls (eventsOf listed) = [ServiceList uid collegeId (queryFilters req)] /\
   store (snd listed) = snd listing /\
   responseOf listed
     = Some (match fst listing with
             | inr memories =>
                 successResponse memories (lit "Memories retrieved successfully") None
             | inl e =>
                 errorResponse (js_or (exn_message e) (VStr (lit "Failed to fetch memories")))
                   500
             end)) /\
  (outsideCalls (eventsOf stats) = [ServiceStats uid collegeId] /\
   store (snd stats) = snd counting /\
   responseOf stats
     = Some (match fst counting with
             | inr result =>
                 successResponse result (lit "Memory statistics retrieved successfully") None
             | inl e =>
                 errorResponse
                   (js_or (exn_message e) (VStr (lit "Failed to fetch memory statistics")))
                   500
             end)).
Proof.
  cbv zeta. split.
  - pattern (serve (getAllMemories svc) req s now). apply serve_wp.
    unfold getAllMemories, queryFilters. cbv zeta. cbn [filter snd].
    destruct (truthy (query_search req)), (truthy (query_startDate req)),
      (truthy (query_endDate req)); cbn [setProp String.eqb Ascii.eqb Bool.eqb];
      apply wp_tryCatch, wp_bind, wp_await; intros outcome s' Ecall;
      cbn [store clock trace] in Ecall; rewrite Ecall; cbn [fst snd];
      destruct outcome; wp_simpl; wp_run; finish; settle.
  - pattern (serve (getMemoryStats svc) req s now). apply serve_wp.
    unfold getMemoryStats.
    apply wp_tryCatch, wp_bind, wp_await. intros outcome s' Ecall.
    cbn [store clock trace] in Ecall. rewrite Ecall. cbn [fst snd].
    destruct outcome; wp_simpl; wp_run; finish; settle.
Qed.
(** X3. deleteMemory makes one call and answers by its outcome alone: 200
    with whatever the service returns; 404 carrying the thrown message when
    that message is a string containing "not found" or "permission"; 500
    with the message, or "Failed to delete memory" for an empty one,
    otherwise.  When the thrown value's message is not a string, the catch
    block itself throws and no response is sent. *)
Theorem deleteMemory_answers req s now :
  let uid := user_id (user req) in
  let collegeId := js_or (college_id (user req)) (tenant req) in
  let call := svc_deleteMemory svc (params_id req) uid collegeId s in
  let r := serve (deleteMemory rt svc) req s now in
  outsideCalls (eventsOf r) = [ServiceDelete (params_id req) uid collegeId] /\
  store (snd r) = snd call /\
  match fst call with
  | inr deleted =>
      responseOf r = Some (successResponse deleted (lit "Memory deleted successfully") None)
  | inl e =>
      match messageText e with
      | Some m =>
          responseOf r
            = Some (if saysNotFound m then notFoundResponse (VStr m)
                    else errorResponse
                           (js_or (VStr m) (VStr (lit "Failed to delete memory"))) 500)
      | None =>
          responseOf r = None /\
          fst r = Throw (JsError (VStr (type_error_message rt (exn_message e) "includes")))
      end
  end.
Proof.
  cbv zeta. unfold messageText, saysNotFound.
  pattern (serve (deleteMemory rt svc) req s now). apply serve_wp.
  unfold deleteMemory.
  apply wp_tryCatch, wp_bind, wp_await. intros outcome s' Ecall.
  cbn [store clock trace] in Ecall. rewrite Ecall. cbn [fst snd].
  destruct outcome as [e|deleted]; wp_simpl.
  - wp_run; finish; cbn [orb]; settle.
  - wp_run; finish; settle.
Qed.

(** X4. updateMemory either stops before the service (no outside call, store
    untouched) or makes exactly one update call, carrying the request's id,
    user and tenant and exactly the body members that are there, in the
    order title, date, description.  After that call the answer follows the
    outcome alone: 200 with the result; 404 with the thrown message when it
    is a string containing "not found" or "permission"; 500 otherwise; and
    no response at all when the thrown message is not a string. *)
Theorem updateMemory_forwards_defined_fields req s now :
  let uid := user_id (user req) in
  let collegeId := js_or (college_id (user req)) (tenant req) in
  let call := svc_updateMemory svc (params_id req) uid collegeId (definedFields req) s in
  let r := serve (updateMemory rt svc) req s now in
  (outsideCalls (eventsOf r) = [] /\ store (snd r) = s) \/
  (outsideCalls (eventsOf r)
     = [ServiceUpdate (params_id req) uid collegeId (definedFields req)] /\
   definedFields req <> [] /\
   store (snd r) = snd call /\
   match fst call with
   | inr updated =>
       responseOf r = Some (successResponse updated (lit "Memory updated successfully") None)
   | inl e =>
       match messageText e with
       | Some m =>
           responseOf r
             = Some (if saysNotFound m then notFoundResponse (VStr m)
                     else errorResponse
                            (js_or (VStr m) (VStr (lit "Failed to update memory"))) 500)
       | None =>
           responseOf r = None /\
           fst r = Throw (JsError (VStr (type_error_message rt (exn_message e) "includes")))
       end
   end).
Proof.
  cbv zeta. unfold messageText, saysNotFound, definedFields. cbn [filter snd].
  pattern (serve (updateMemory rt svc) req s now). apply serve_wp.
  unfold updateMemory.
  wp_run.
  all: finish.
  all: try (left; split; reflexivity).
  all: right;
       match goal with
       | E : svc_updateMemory _ _ _ _ _ _ = _ |- _ =>
           cbn [setProp String.eqb Ascii.eqb Bool.eqb] in E |- *; rewrite E
       end;
       cbn [fst snd orb];
       repeat match goal with
              | H : exn_message ?e = _ |- context [exn_message ?e] => rewrite H
              end;
       cbn [fst snd orb];
       repeat match goal with
              | H : includes ?a ?b = _ |- context [includes ?a ?b] => rewrite H
              | H : eqb ?a ?b = _ |- context [eqb ?a ?b] => rewrite H
              end;
       cbn [orb];
       repeat split; try reflexivity; intros Hnone; discriminate Hnone.
Qed.

(** X5. With a title that is a string or absent, updateMemory checks, in
    this order, that the title is not blank, that its trimmed length is at
    most 200, that the date parses, that it is not after today, and that
    some field is there.  The first check that fails decides the 400 answer,
    nothing is logged or called and the store is untouched; when none fails
    the service's update is the one outside call. *)
Theorem update_validation_order req s now :
  textOrUndefined (body_title req) = true ->
  let r := serve (updateMemory rt svc) req s now in
  match firstUpdateViolation rt req now with
  | Some v =>
      responseOf r = Some (errorResponse (VStr (lit (updateViolationMessage v))) 400) /\
      eventsOf r = [] /\
      store (snd r) = s
  | None =>
      outsideCalls (eventsOf r)
        = [ServiceUpdate (params_id req) (user_id (user req))
             (js_or (college_id (user req)) (tenant req)) (definedFields req)]
  end.
Proof.
  intros Htitle. cbv zeta.
  unfold firstUpdateViolation, updateCheckOrder, definedFields.
  cbn [find updateViolates filter snd].
  pattern (serve (updateMemory rt svc) req s now). apply serve_wp.
  unfold updateMemory.
  wp_run.
  all: finish.
  all: repeat match goal with
              | H : isDefined _ = false |- _ =>
                  apply isDefined_false in H; try rewrite H in *
              end.
  all: cbn [setProp String.eqb Ascii.eqb Bool.eqb updateViolationMessage].
  all: repeat split; reflexivity.
Qed.

(** X6. A title that is there but is not a string (null, a number, a
    boolean) is not answered 400: the TypeError of title.trim() is caught,
    and the answer is 500 with that error's message, or 404 when the message
    contains "not found" or "permission".  Nothing outside is called,
    whatever the other fields are. *)
Theorem update_title_not_a_string req s now :
  textOrUndefined (body_title req) = false ->
  let r := serve (updateMemory rt svc) req s now in
  let m := type_error_message rt (body_title req) "trim" in
  responseOf r
    = Some (if saysNotFound m then notFoundResponse (VStr m)
            else errorResponse (js_or (VStr m) (VStr (lit "Failed to update memory"))) 500) /\
  outsideCalls (eventsOf r) = [] /\
  store (snd r) = s.
Proof.
  intros Htitle. cbv zeta. unfold saysNotFound.
  pattern (serve (updateMemory rt svc) req s now). apply serve_wp.
  unfold updateMemory.
  wp_run.
  all: finish.
  all: repeat match goal with
              | H : isDefined _ = false |- _ =>
                  apply isDefined_false in H; try rewrite H in *
              end;
       try discriminate.
  all: repeat match goal with
              | H : includes ?a ?b = _ |- context [includes ?a ?b] => rewrite H
              | H : eqb ?a ?b = _ |- context [eqb ?a ?b] => rewrite H
              end;
       cbn [orb negb].
  all: repeat split; reflexivity.
Qed.

(** The upload middleware hands the handler a file only with no error, and
    only a file that passed the extension filter and the size limit. *)
Lemma upload_hands_over_checked_file u err f :
  uploadMiddleware rt u = (err, Some f) ->
  err = None /\ u = PhotoUpload f /\
  arrayIncludes allowedImageTypes (fileExtension rt f) = true /\
  (size f <= fileSizeLimit rt)%Z.
Proof.
  unfold uploadMiddleware, fileFilter.
  destruct u as [| f0 | e]; try discriminate.
  destruct (arrayIncludes allowedImageTypes (fileExtension rt f0)) eqn:Eext;
    try discriminate.
  destruct (fileSizeLimit rt <? size f0)%Z eqn:Esize; try discriminate.
  intros H. inversion H; subst.
  apply Z.ltb_ge in Esize. auto.
Qed.

(** X7. createMemory always answers, and never with 404: either 400, and
    then the store is untouched and the service's create was not called; or
    500; or 201 "Memory created successfully" with the record the service's
    create returned, the store being the one that call left. *)
Theorem createMemory_always_answers req s now :
  let r := serve (createMemory rt svc) req s now in
  (exists m, responseOf r = Some (errorResponse m 400) /\
             store (snd r) = s /\
             existsb isServiceCreate (eventsOf r) = false) \/
  (exists m, responseOf r = Some (errorResponse m 500)) \/
  (exists d f u c created,
     responseOf r
       = Some (successResponse created (lit "Memory created successfully") (Some 201%Z)) /\
     svc_createMemory svc d f u c s = (inr created, store (snd r)) /\
     In (ServiceCreate d f u c) (eventsOf r)).
Proof.
  cbv zeta.
  pattern (serve (createMemory rt svc) req s now). apply serve_wp.
  unfold createMemory.
  destruct (uploadMiddleware rt (upload req)) as [err file] eqn:Eup.
  wp_run.
  all: finish.
  all: first
         [ left; eexists; repeat split; reflexivity
         | right; left; eexists; reflexivity
         | right; right; eexists _, _, _, _, _;
           split; [reflexivity|]; split; [eassumption|];
           repeat first [left; reflexivity | right] ].
Qed.

(** X8. What createMemory hands to the service's create: the uploaded file
    itself, which has an allowed extension and a size within the limit; the
    date as it was received; and the description trimmed, or null when it is
    absent, empty or not a string.  A description of blanks only is handed
    over as the empty string. *)
Theorem create_call_payload req s now d f u c :
  In (ServiceCreate d f u c) (eventsOf (serve (createMemory rt svc) req s now)) ->
  upload req = PhotoUpload f /\
  arrayIncludes allowedImageTypes (fileExtension rt f) = true /\
  (size f <= fileSizeLimit rt)%Z /\
  data_date d = body_date req /\
  data_description d
    = match body_description req with
      | VStr x => if eqb x [] then VNull else VStr (trim x)
      | _ => VNull
      end.
Proof.
  intros Hev. apply (In_outsideCalls (ServiceCreate d f u c) _ eq_refl) in Hev.
  destruct (passesValidation rt req now) eqn:Hvalid.
  2:{ rewrite (create_without_validation Store Memory rt svc req s now Hvalid) in Hev.
      destruct Hev. }
  destruct (create_after_validation Store Memory rt svc req s now Hvalid)
    as (f0 & t & Eup & _ & H).
  assert (Hquery : forall a b x, ~ In (ServiceCreate d f u c)
                                    (if a || b then [] else [ProfileQuery x])).
  { intros a b x. destruct (a || b); cbn; intuition discriminate. }
  destruct (firstNonEmpty _) as [c0|].
  2:{ destruct H as [_ Hcalls]. rewrite Hcalls in Hev. apply Hquery in Hev. destruct Hev. }
  destruct H as [Hbad Hgood].
  destruct (textOrFalsy (body_description req)) eqn:Edesc.
  2:{ destruct (Hbad eq_refl) as [Hcalls _]. rewrite Hcalls in Hev.
      apply Hquery in Hev. destruct Hev. }
  destruct (Hgood eq_refl) as (d0 & _ & Hd & Hx & Hcalls & _).
  rewrite Hcalls in Hev. apply in_app_or in Hev. destruct Hev as [Hev|[Hev|[]]].
  { apply Hquery in Hev. destruct Hev. }
  inversion Hev; subst.
  destruct (upload_hands_over_checked_file _ _ _ Eup) as (_ & Hup & Hext & Hsize).
  repeat (split; [assumption|]).
  rewrite Hx. revert Edesc.
  destruct (body_description req) as [| | b | n | x]; cbn [textOrFalsy truthy negb];
    try reflexivity.
  - destruct b; [discriminate | reflexivity].
  - destruct (n =? 0)%Z; [reflexivity | discriminate].
  - destruct (eqb x []); reflexivity.
Qed.

(** X9. A failed profile lookup is logged and otherwise ignored.  When the
    session and the request carry no tenant id and the lookup comes back
    with an error and no row, a request that passed validation is answered
    400 "College ID not found", not 500; the error is on the console, the
    lookup is the one outside call, and the store is untouched. *)
Theorem profile_lookup_error_is_tolerated req s now e :
  passesValidation rt req now = true ->
  truthy (college_id (user req)) = false ->
  truthy (tenant req) = false ->
  profiles_select_college_id svc (user_id (user req)) s
    = {| data := None; error := Some e |} ->
  let r := serve (createMemory rt svc) req s now in
  responseOf r = Some (errorResponse (VStr collegeIdNotFound) 400) /\
  In (LogError "[MemoryWall] Error fetching profile:" e) (eventsOf r) /\
  outsideCalls (eventsOf r) = [ProfileQuery (user_id (user req))] /\
  store (snd r) = s.
Proof.
  intros Hvalid Hsession Htenant Hlookup. cbv zeta.
  destruct (validated_facts rt req now Hvalid)
    as (f & t & ms & Eup & Etitle & Et & Etrim & Elen & Edate & Eparse & Efuture).
  pattern (serve (createMemory rt svc) req s now). apply serve_wp.
  unfold createMemory. rewrite Eup, Etitle.
  unfold js_or. rewrite Hsession, Htenant.
  wp_run.
  all: finish.
  all: rewrite Hlookup in *; cbn [data error] in *; try discriminate.
  all: match goal with H : Some ?a = Some ?b |- _ => inversion H; subst end.
  all: repeat split; auto 12.
Qed.

(** Closes the goals about whom the calls of an explicit trace are made for. *)
Ltac requester :=
  unfold actsForRequester; intros ev Hev; finish;
  repeat match goal with
         | H : _ \/ _ |- _ => destruct H
         | H : False |- _ => destruct H
         end;
  subst ev; cbn [serviceUser serviceMemoryId];
  split; intros x Hx; first [discriminate Hx | inversion Hx; reflexivity].

(** X10. No handler calls on behalf of anyone but the authenticated user,
    or about a memory other than the one of the path: every call to the
    persistence service and to the profile table, in every run of the six
    handlers, carries the id of req.user, and a call that names a memory
    carries req.params.id, whatever the body and the query say. *)
Theorem handlers_act_for_requester req s now :
  actsForRequester req (serve (createMemory rt svc) req s now) /\
  actsForRequester req (serve (getAllMemories svc) req s now) /\
  actsForRequester req (serve (getMemoryById svc) req s now) /\
  actsForRequester req (serve (updateMemory rt svc) req s now) /\
  actsForRequester req (serve (deleteMemory rt svc) req s now) /\
  actsForRequester req (serve (getMemoryStats svc) req s now).
Proof.
  repeat match goal with |- _ /\ _ => split end.
  - pattern (serve (createMemory rt svc) req s now). apply serve_wp.
    unfold createMemory.
    destruct (uploadMiddleware rt (upload req)) as [err file] eqn:Eup.
    wp_run; requester.
  - pattern (serve (getAllMemories svc) req s now). apply serve_wp.
    unfold getAllMemories. wp_run; requester.
  - pattern (serve (getMemoryById svc) req s now). apply serve_wp.
    unfold getMemoryById. wp_run; requester.
  - pattern (serve (updateMemory rt svc) req s now). apply serve_wp.
    unfold updateMemory. wp_run; requester.
  - pattern (serve (deleteMemory rt svc) req s now). apply serve_wp.
    unfold deleteMemory. wp_run; requester.
  - pattern (serve (getMemoryStats svc) req s now). apply serve_wp.
    unfold getMemoryStats. wp_run; requester.
Qed.

End FurtherProperties.

(** ** ThemeContext *)

Import Theme.

Lemma light_is_not_dark : lit "light" <> lit "dark".
Proof. intros H. vm_compute in H. discriminate H. Qed.

Lemma In_classListRemove (tokens : list jstr) (l : ClassList) (c : jstr) :
  In c (classListRemove tokens l) <-> In c l /\ ~ In c tokens.
Proof.
  unfold classListRemove. rewrite filter_In, negb_true_iff.
  rewrite <- (arrayIncludes_In tokens c).
  destruct (arrayIncludes tokens c); intuition congruence.
Qed.

Lemma classListAdd_fresh (token : jstr) (l : ClassList) :
  ~ In token l -> classListAdd token l = l ++ [token].
Proof.
  intros Hfresh. unfold classListAdd.
  destruct (arrayIncludes l token) eqn:E; [|reflexivity].
  apply arrayIncludes_In in E. contradiction.
Qed.

Lemma In_classListAdd (token : jstr) (l : ClassList) (c : jstr) :
  In c (classListAdd token l) <-> In c l \/ c = token.
Proof.
  unfold classListAdd. destruct (arrayIncludes l token) eqn:E.
  - apply arrayIncludes_In in E. split; [auto|]. intros [H|H]; [exact H | subst; exact E].
  - rewrite in_app_iff. cbn. intuition.
Qed.

Lemma NoDup_classListAdd (token : jstr) (l : ClassList) :
  NoDup l -> NoDup (classListAdd token l).
Proof.
  intros Hl. unfold classListAdd. destruct (arrayIncludes l token) eqn:E; [exact Hl|].
  assert (Hfresh : ~ In token l).
  { intros H. apply arrayIncludes_In in H. congruence. }
  clear E. induction Hl as [|x l Hx Hl IH]; cbn.
  - constructor; [intros []|constructor].
  - constructor.
    + rewrite in_app_iff. cbn. intros [H|[H|[]]]; [contradiction|].
      apply Hfresh. left. symmetry. exact H.
    + apply IH. intros H. apply Hfresh. right. exact H.
Qed.

(** The class list once it is cleared of the two theme classes and given
    one of them. *)
Lemma themeClasses_fresh (token : jstr) (l : ClassList) :
  In token [lit "light"; lit "dark"] ->
  classListAdd token (classListRemove [lit "light"; lit "dark"] l)
    = classListRemove [lit "light"; lit "dark"] l ++ [token].
Proof.
  intros Htoken. apply classListAdd_fresh. rewrite In_classListRemove. tauto.
Qed.

Lemma classListRemove_again (tokens : list jstr) (token : jstr) (l : ClassList) :
  In token tokens ->
  classListRemove tokens (classListRemove tokens l ++ [token]) = classListRemove tokens l.
Proof.
  intros Htoken. unfold classListRemove. rewrite filter_app. cbn [filter].
  apply arrayIncludes_In in Htoken. rewrite Htoken. cbn [negb].
  rewrite app_nil_r.
  induction l as [|c l IH]; cbn [filter]; [reflexivity|].
  destruct (negb (arrayIncludes tokens c)) eqn:E; cbn [filter]; rewrite ?E; congruence.
Qed.

Lemma getItem_setItem (k v : jstr) (st : Storage) : getItem k (setItem k v st) = Some v.
Proof.
  induction st as [|[k' v'] st IH]; cbn.
  - rewrite eqb_refl. reflexivity.
  - destruct (eqb k' k) eqn:E; cbn; [rewrite eqb_refl | rewrite E]; auto.
Qed.

Lemma setItem_setItem (k v1 v2 : jstr) (st : Storage) :
  setItem k v2 (setItem k v1 st) = setItem k v2 st.
Proof.
  induction st as [|[k' v'] st IH]; cbn.
  - rewrite eqb_refl. reflexivity.
  - destruct (eqb k' k) eqn:E; cbn; [rewrite eqb_refl | rewrite E, IH]; reflexivity.
Qed.

(** Writing one key leaves the others as they are. *)
Lemma getItem_setItem_other (k k' v : jstr) (st : Storage) :
  k' <> k -> getItem k' (setItem k v st) = getItem k' st.
Proof.
  intros Hk.
  assert (Hkk : eqb k k' = false).
  { destruct (eqb k k') eqn:E; [|reflexivity]. apply eqb_eq in E. congruence. }
  induction st as [|[k0 v0] st IH]; cbn.
  - rewrite Hkk. reflexivity.
  - destruct (eqb k0 k) eqn:E; cbn.
    + apply eqb_eq in E. subst k0. rewrite Hkk. reflexivity.
    + rewrite IH. reflexivity.
Qed.

(** The last element of a list that has one does not depend on the default. *)
Lemma last_cons {A : Type} (x : A) (l : list A) (d d' : A) :
  last (x :: l) d = last (x :: l) d'.
Proof.
  revert x. induction l as [|y l IH]; intros x; [reflexivity|].
  change (last (y :: l) d = last (y :: l) d'). apply IH.
Qed.

Section ThemeProperties.

Variable numberToString : Z -> jstr.

(** The class the effect adds for a theme. *)
Lemma applyTheme_classList (v : jsval) (b : Browser) :
  classList (applyTheme numberToString v b)
    = classListRemove [lit "light"; lit "dark"] (classList b)
        ++ [if jsval_eqb v (VStr (lit "midnight")) then lit "dark" else lit "light"].
Proof.
  unfold applyTheme. cbn [classList].
  destruct (jsval_eqb v (VStr (lit "midnight"))); apply themeClasses_fresh; cbn; auto.
Qed.

(** X11. After the effect has run for a theme, the root element has the
    class dark exactly when the theme is the string "midnight" and the class
    light exactly when it is not; every other class is kept, and a class
    list without repeats stays without repeats. *)
Theorem applyTheme_classes (v : jsval) (b : Browser) :
  let after := classList (applyTheme numberToString v b) in
  (In (lit "dark") after <-> v = VStr (lit "midnight")) /\
  (In (lit "light") after <-> v <> VStr (lit "midnight")) /\
  (forall c, c <> lit "light" -> c <> lit "dark" ->
     (In c after <-> In c (classList b))) /\
  (NoDup (classList b) -> NoDup after).
Proof.
  cbv zeta.
  assert (Hin : forall c,
            In c (classList (applyTheme numberToString v b))
            <-> (In c (classList b) /\ c <> lit "light" /\ c <> lit "dark")
                \/ c = (if jsval_eqb v (VStr (lit "midnight"))
                        then lit "dark" else lit "light")).
  { intros c. rewrite applyTheme_classList, in_app_iff, In_classListRemove. cbn [In].
    intuition (subst; auto). }
  pose proof light_is_not_dark as Hld.
  pose proof (jsval_eqb_eq v (VStr (lit "midnight"))) as Heq.
  repeat split.
  - rewrite Hin. destruct (jsval_eqb v (VStr (lit "midnight")));
      intuition congruence.
  - intros ->. rewrite Hin. right. cbn. rewrite eqb_refl. reflexivity.
  - rewrite Hin. destruct (jsval_eqb v (VStr (lit "midnight")));
      intuition congruence.
  - intros Hne. rewrite Hin. right.
    destruct (jsval_eqb v (VStr (lit "midnight"))); [|reflexivity].
    destruct Hne. apply Heq. reflexivity.
  - rewrite Hin. destruct (jsval_eqb v (VStr (lit "midnight")));
      intuition congruence.
  - rewrite Hin. intuition.
  - intros Hnodup. unfold applyTheme. cbn [classList].
    destruct (jsval_eqb v (VStr (lit "midnight")));
      apply NoDup_classListAdd, NoDup_filter, Hnodup.
Qed.

(** X12. Running the effect for one theme and then for another leaves the
    browser as running it for the second alone: the first theme's class and
    stored value are gone.  In particular running it twice for one theme is
    running it once. *)
Theorem applyTheme_last_wins (v1 v2 : jsval) (b : Browser) :
  applyTheme numberToString v2 (applyTheme numberToString v1 b)
    = applyTheme numberToString v2 b.
Proof.
  assert (Hclasses :
    classListRemove [lit "light"; lit "dark"]
      (classList (applyTheme numberToString v1 b))
    = classListRemove [lit "light"; lit "dark"] (classList b)).
  { rewrite applyTheme_classList. apply classListRemove_again.
    destruct (jsval_eqb v1 (VStr (lit "midnight"))); cbn; auto. }
  unfold applyTheme at 1 3. rewrite Hclasses.
  unfold applyTheme. cbn [localStorage]. rewrite setItem_setItem. reflexivity.
Qed.

(** The state of the provider after a sequence of changes. *)
Lemma afterChanges_theme (names : list jsval) (p : Provider) :
  currentTheme (afterChanges numberToString names p) = last names (currentTheme p).
Proof.
  unfold afterChanges. revert p.
  induction names as [|name names IH]; intros p; [reflexivity|].
  cbn [fold_left]. rewrite IH.
  assert (Hone : currentTheme (changeTheme numberToString name p) = name).
  { unfold changeTheme. destruct (jsval_eqb name (currentTheme p)) eqn:E; [|reflexivity].
    apply jsval_eqb_eq in E. congruence. }
  rewrite Hone. destruct names as [|next names]; [reflexivity|].
  change (last (name :: next :: names) (currentTheme p))
    with (last (next :: names) (currentTheme p)).
  apply last_cons.
Qed.

Lemma applyTheme_inSync (v : jsval) (b : Browser) :
  inSync numberToString {| currentTheme := v; browser := applyTheme numberToString v b |}.
Proof.
  unfold inSync. cbn [currentTheme browser].
  pose proof light_is_not_dark as Hld.
  pose proof (jsval_eqb_eq v (VStr (lit "midnight"))) as Heq.
  split; [apply getItem_setItem|].
  rewrite applyTheme_classList, !in_app_iff, !In_classListRemove. cbn [In].
  destruct (jsval_eqb v (VStr (lit "midnight"))); intuition congruence.
Qed.

Lemma changeTheme_inSync (name : jsval) (p : Provider) :
  inSync numberToString p -> inSync numberToString (changeTheme numberToString name p).
Proof.
  intros Hp. unfold changeTheme.
  destruct (jsval_eqb name (currentTheme p)); [exact Hp | apply applyTheme_inSync].
Qed.

Lemma afterChanges_inSync (names : list jsval) (p : Provider) :
  inSync numberToString p -> inSync numberToString (afterChanges numberToString names p).
Proof.
  unfold afterChanges. revert p.
  induction names as [|name names IH]; intros p Hp; [exact Hp|].
  cbn [fold_left]. apply IH, changeTheme_inSync, Hp.
Qed.

(** X13. From the first render on, and after any sequence of calls to
    changeTheme, the provider's state is the last theme asked for (the
    initial one when none was), the stored value is that theme as a string,
    and the root element has dark exactly for "midnight" and light exactly
    otherwise. *)
Theorem provider_stays_in_sync (b : Browser) (names : list jsval) :
  let p := afterChanges numberToString names (mount numberToString b) in
  currentTheme p = last names (initialTheme (Some b)) /\
  inSync numberToString p.
Proof.
  cbv zeta. split.
  - rewrite afterChanges_theme. reflexivity.
  - apply afterChanges_inSync. unfold mount. apply applyTheme_inSync.
Qed.

(** X14. What a reload starts from: the theme the provider last stored, as
    a string, and "ocean" when that string is empty.  A theme that is a
    non-empty string survives the reload as it is; null, undefined, true,
    false and numbers come back as their string forms. *)
Theorem theme_after_reload (b : Browser) (names : list jsval) :
  let p := afterChanges numberToString names (mount numberToString b) in
  initialTheme (Some (browser p))
    = js_or (VStr (toString numberToString (currentTheme p))) (VStr (lit "ocean")) /\
  match currentTheme p with
  | VStr s => s <> [] -> initialTheme (Some (browser p)) = currentTheme p
  | VNull => initialTheme (Some (browser p)) = VStr (lit "null")
  | VUndefined => initialTheme (Some (browser p)) = VStr (lit "undefined")
  | VBool flag =>
      initialTheme (Some (browser p)) = VStr (lit (if flag then "true" else "false"))
  | VNum n =>
      initialTheme (Some (browser p))
        = js_or (VStr (numberToString n)) (VStr (lit "ocean"))
  end.
Proof.
  cbv zeta.
  set (p := afterChanges numberToString names (mount numberToString b)).
  assert (Hsync : inSync numberToString p).
  { apply afterChanges_inSync. unfold mount. apply applyTheme_inSync. }
  destruct Hsync as [Hstored _].
  assert (Hreload :
    initialTheme (Some (browser p))
    = js_or (VStr (toString numberToString (currentTheme p))) (VStr (lit "ocean"))).
  { unfold initialTheme. rewrite Hstored. reflexivity. }
  split; [exact Hreload|].
  rewrite Hreload.
  destruct (currentTheme p) as [| | [|] | n | s]; try reflexivity.
  intros Hs. cbn [toString]. unfold js_or. cbn [truthy].
  destruct (eqb s []) eqn:E; [|reflexivity].
  apply eqb_eq in E. contradiction.
Qed.

(** X15. The effect writes the one key "sensease-theme": every other key
    of the local storage reads as before, after the first render and after
    any sequence of theme changes. *)
Theorem other_keys_untouched (b : Browser) (names : list jsval) (k : jstr) :
  k <> storageKey ->
  getItem k (localStorage (browser (afterChanges numberToString names
                                      (mount numberToString b))))
    = getItem k (localStorage b).
Proof.
  intros Hk.
  assert (Hchanges : forall p,
            getItem k (localStorage (browser (afterChanges numberToString names p)))
            = getItem k (localStorage (browser p))).
  { unfold afterChanges. induction names as [|name names IH]; intros p; [reflexivity|].
    cbn [fold_left]. rewrite IH. unfold changeTheme.
    destruct (jsval_eqb name (currentTheme p)); [reflexivity|].
    cbn [browser]. unfold applyTheme. cbn [localStorage].
    apply getItem_setItem_other, Hk. }
  rewrite Hchanges. unfold mount. cbn [browser]. unfold applyTheme. cbn [localStorage].
  apply getItem_setItem_other, Hk.
Qed.

End ThemeProperties.

(** ** The further properties at sample requests *)

(** X5 at an update with a blank title and tomorrow's date: the title check
    comes first. *)
Lemma update_validation_order_witness :
  let req := Sample.onMemory (Sample.student (VStr (lit "college-1"))) VUndefined
               (VStr (lit "m-1")) (VStr (lit "   ")) Sample.tomorrow VUndefined in
  let r := serve (updateMemory Sample.runtime (Sample.accepting Sample.noProfile))
             req tt Sample.noon in
  responseOf r = Some (errorResponse (VStr (lit "Title cannot be empty")) 400) /\
  eventsOf r = [] /\
  store (snd r) = tt.
Proof.
  cbv zeta.
  exact (update_validation_order unit unit Sample.runtime
           (Sample.accepting Sample.noProfile)
           (Sample.onMemory (Sample.student (VStr (lit "college-1"))) VUndefined
              (VStr (lit "m-1")) (VStr (lit "   ")) Sample.tomorrow VUndefined)
           tt Sample.noon eq_refl).
Defined.

(** X6 at an update whose title is the number 7. *)
Lemma update_title_not_a_string_witness :
  let req := Sample.onMemory (Sample.student (VStr (lit "college-1"))) VUndefined
               (VStr (lit "m-1")) (VNum 7) VUndefined VUndefined in
  let r := serve (updateMemory Sample.runtime (Sample.accepting Sample.noProfile))
             req tt Sample.noon in
  responseOf r = Some (errorResponse (VStr (lit "trim is not a function")) 500) /\
  outsideCalls (eventsOf r) = [] /\
  store (snd r) = tt.
Proof.
  cbv zeta.
  exact (update_title_not_a_string unit unit Sample.runtime
           (Sample.accepting Sample.noProfile)
           (Sample.onMemory (Sample.student (VStr (lit "college-1"))) VUndefined
              (VStr (lit "m-1")) (VNum 7) VUndefined VUndefined)
           tt Sample.noon eq_refl).
Defined.

(** X8 at the scenario of the specification with a description of blanks. *)
Lemma create_call_payload_witness :
  let req := Sample.create (Sample.student (VStr (lit "college-1"))) VUndefined
               (VStr (lit "Field Trip")) Sample.today (VStr (lit "  "))
               (PhotoUpload (Sample.photo "trip.JPG" 2097152)) in
  let r := serve (createMemory Sample.runtime (Sample.accepting Sample.noProfile))
             req tt Sample.noon in
  let d := {| data_title := lit "Field Trip";
              data_date := Sample.today;
              data_description := VStr [] |} in
  let f := Sample.photo "trip.JPG" 2097152 in
  In (ServiceCreate d f (VStr (lit "student-7")) (VStr (lit "college-1"))) (eventsOf r) /\
  upload req = PhotoUpload f /\
  arrayIncludes allowedImageTypes (fileExtension Sample.runtime f) = true /\
  (size f <= fileSizeLimit Sample.runtime)%Z.
Proof.
  cbv zeta.
  assert (Hev : In (ServiceCreate
                      {| data_title := lit "Field Trip";
                         data_date := Sample.today;
                         data_description := VStr [] |}
                      (Sample.photo "trip.JPG" 2097152)
                      (VStr (lit "student-7")) (VStr (lit "college-1")))
                   (eventsOf
                      (serve (createMemory Sample.runtime
                                (Sample.accepting Sample.noProfile))
                         (Sample.create (Sample.student (VStr (lit "college-1")))
                            VUndefined (VStr (lit "Field Trip")) Sample.today
                            (VStr (lit "  "))
                            (PhotoUpload (Sample.photo "trip.JPG" 2097152)))
                         tt Sample.noon))).
  { vm_compute. auto 10. }
  split; [exact Hev|].
  destruct (create_call_payload unit unit Sample.runtime
              (Sample.accepting Sample.noProfile)
              (Sample.create (Sample.student (VStr (lit "college-1")))
                 VUndefined (VStr (lit "Field Trip")) Sample.today
                 (VStr (lit "  "))
                 (PhotoUpload (Sample.photo "trip.JPG" 2097152)))
              tt Sample.noon
              {| data_title := lit "Field Trip";
                 data_date := Sample.today;
                 data_description := VStr [] |}
              (Sample.photo "trip.JPG" 2097152)
              (VStr (lit "student-7")) (VStr (lit "college-1")) Hev)
    as (Hup & Hext & Hsize & _).
  split; [exact Hup|]. split; [exact Hext | exact Hsize].
Defined.

(** X9 at the scenario of the specification, for a student without a
    college id whose profile lookup times out. *)
Lemma profile_lookup_error_is_tolerated_witness :
  let failure := JsError (VStr (lit "connection timeout")) in
  let svc := Sample.accepting {| data := None; error := Some failure |} in
  let req := Sample.fieldTrip (Sample.student VUndefined) VUndefined in
  let r := serve (createMemory Sample.runtime svc) req tt Sample.noon in
  responseOf r = Some (errorResponse (VStr collegeIdNotFound) 400) /\
  In (LogError "[MemoryWall] Error fetching profile:" failure) (eventsOf r) /\
  outsideCalls (eventsOf r) = [ProfileQuery (VStr (lit "student-7"))] /\
  store (snd r) = tt.
Proof.
  cbv zeta.
  apply (profile_lookup_error_is_tolerated unit unit Sample.runtime
           (Sample.accepting
              {| data := None;
                 error := Some (JsError (VStr (lit "connection timeout"))) |})
           (Sample.fieldTrip (Sample.student VUndefined) VUndefined)
           tt Sample.noon (JsError (VStr (lit "connection timeout")))).
  - vm_compute. reflexivity.
  - reflexivity.
  - reflexivity.
  - reflexivity.
Defined.

(** X15 at a browser that holds a session token, after a change to
    "midnight". *)
Lemma other_keys_untouched_witness :
  let b := {| classList := [lit "app"];
              localStorage := [(lit "token", lit "abc")] |} in
  getItem (lit "token")
    (localStorage (browser (afterChanges (fun _ => lit "0") [VStr (lit "midnight")]
                              (mount (fun _ => lit "0") b))))
    = Some (lit "abc").
Proof.
  cbv zeta.
  apply (other_keys_untouched (fun _ => lit "0")
           {| classList := [lit "app"]; localStorage := [(lit "token", lit "abc")] |}
           [VStr (lit "midnight")] (lit "token")).
  intros H. vm_compute in H. discriminate H.
Defined.
